(** * git_to_zip: packaging the files changed between two revisions

    A shallow embedding of [src/git_to_zip.py].  The script is a linear
    sequence of calls to git (through [subprocess.check_output]), to the
    file system and to [zipfile]; those are modelled as an environment of
    oracles and a file-system state that the embedded functions thread
    explicitly.  The pure parts (text handling, the version pattern, the
    float arithmetic of the version and its one-digit rendering) are
    executable functions.

    Text is Python [str] restricted to code points below 256, one [ascii]
    per code point. *)

From Stdlib Require Import ZArith List Lia Bool.
From Stdlib Require Import Strings.String Strings.Ascii.
From Stdlib Require Import Numbers.DecimalString.
From Stdlib Require Import Floats.SpecFloat.
From stdpp Require Import gmap strings.

Open Scope string_scope.
Open Scope Z_scope.

(** ** Python text primitives *)

Module Py.

Definition code (c : ascii) : N := N_of_ascii c.

(** [str.isspace] for one code point below 256. *)
Definition is_space (c : ascii) : bool :=
  let n := code c in
  ((9 <=? n) && (n <=? 13) || (28 <=? n) && (n <=? 32)
   || (n =? 133) || (n =? 160))%N.

(** Line boundaries of [str.splitlines] below 256. *)
Definition is_linebreak (c : ascii) : bool :=
  let n := code c in
  ((10 <=? n) && (n <=? 13) || (28 <=? n) && (n <=? 30) || (n =? 133))%N.

Definition LF : ascii := ascii_of_N 10.
Definition CR : ascii := ascii_of_N 13.

Fixpoint lstrip (s : string) : string :=
  match s with
  | String c s' => if is_space c then lstrip s' else s
  | EmptyString => EmptyString
  end.

Fixpoint rstrip (s : string) : string :=
  match s with
  | String c s' =>
      match rstrip s' with
      | EmptyString => if is_space c then EmptyString else String c EmptyString
      | r => String c r
      end
  | EmptyString => EmptyString
  end.

(** [s.strip()] *)
Definition strip (s : string) : string := rstrip (lstrip s).

(** [s.replace(old, new)] for a one-character [old]. *)
Fixpoint replace (old : ascii) (new : string) (s : string) : string :=
  match s with
  | String c s' =>
      if Ascii.eqb c old then new ++ replace old new s'
      else String c (replace old new s')
  | EmptyString => EmptyString
  end.

(** [s.splitlines()]: [cur] is the line being read; a carriage return
    followed by a line feed is one boundary; no empty last line. *)
Fixpoint splitlines_from (cur : string) (s : string) : list string :=
  match s with
  | EmptyString =>
      match cur with EmptyString => [] | _ => [cur] end
  | String c s' =>
      if is_linebreak c then
        cur :: match s' with
               | String d s'' =>
                   if Ascii.eqb c CR && Ascii.eqb d LF
                   then splitlines_from EmptyString s''
                   else splitlines_from EmptyString s'
               | EmptyString => []
               end
      else splitlines_from (cur ++ String c EmptyString) s'
  end.

Definition splitlines (s : string) : list string :=
  splitlines_from EmptyString s.

(** [s[:n]] *)
Fixpoint slice_to (n : nat) (s : string) : string :=
  match n, s with
  | S n', String c s' => String c (slice_to n' s')
  | _, _ => EmptyString
  end.

Fixpoint startswith (p s : string) : option string :=
  match p, s with
  | EmptyString, _ => Some s
  | String a p', String b s' =>
      if Ascii.eqb a b then startswith p' s' else None
  | String _ _, EmptyString => None
  end.

Fixpoint endswith_char (c : ascii) (s : string) : bool :=
  match s with
  | EmptyString => false
  | String d EmptyString => Ascii.eqb d c
  | String _ s' => endswith_char c s'
  end.

(** Truth value of an optional string: [None] and [""] are false. *)
Definition truthy (o : option string) : bool :=
  match o with
  | Some (String _ _) => true
  | _ => false
  end.

(** [a or b] on optional strings. *)
Definition or_else (a b : option string) : option string :=
  if truthy a then a else b.

Definition is_digit (c : ascii) : bool :=
  let n := code c in ((48 <=? n) && (n <=? 57))%N.

Definition is_alpha (c : ascii) : bool :=
  let n := code c in
  ((65 <=? n) && (n <=? 90) || (97 <=? n) && (n <=? 122))%N.

(** Decimal rendering of a natural number, as [str(n)]. *)
Definition str_of_N (n : N) : string :=
  NilZero.string_of_uint (N.to_uint n).

(** Zero padding on the left up to [w] characters, as [%02d]. *)
Definition zfill (w : nat) (s : string) : string :=
  String.concat "" (repeat "0" (w - String.length s)) ++ s.

End Py.

(** ** [sanitize_filename] *)

(** The class [[a-zA-Z0-9_\-]]. *)
Definition allowed (c : ascii) : bool :=
  Py.is_alpha c || Py.is_digit c || Ascii.eqb c "_" || Ascii.eqb c "-".

(** [re.sub(r'[^a-zA-Z0-9_\-]', '', s)] *)
Fixpoint re_sub_disallowed (s : string) : string :=
  match s with
  | String c s' =>
      if allowed c then String c (re_sub_disallowed s') else re_sub_disallowed s'
  | EmptyString => EmptyString
  end.

Definition sanitize_filename (name : string) : string :=
  re_sub_disallowed (Py.replace " " "_" name).


(** ** Binary64 floats: the version number

    Python's [float] is IEEE 754 binary64; the Standard Library's
    [SpecFloat] gives its operations on integers, rounding to nearest,
    ties to even. *)

Module Float64.

Definition prec : Z := 53.
Definition emax : Z := 1024.

Definition add : spec_float -> spec_float -> spec_float := SFadd prec emax.
Definition div : spec_float -> spec_float -> spec_float := SFdiv prec emax.

(** [x < y] *)
Definition ltb : spec_float -> spec_float -> bool := SFltb.

(** The exact quotient [n / d] of two positive integers, rounded once.
    [SFdiv] takes mantissas of any size. *)
Definition of_ratio (n d : positive) : spec_float :=
  div (S754_finite false n 0) (S754_finite false d 0).

(** [n / d] on integers, which Python rounds once from the exact quotient. *)
Definition true_div (n : Z) (d : positive) : spec_float :=
  match n with
  | Z0 => S754_zero false
  | Zpos p => of_ratio p d
  | Zneg p => div (S754_finite true p 0) (S754_finite false d 0)
  end.

Fixpoint digits_value (acc : Z) (s : string) : option Z :=
  match s with
  | String c s' =>
      if Py.is_digit c
      then digits_value (10 * acc + (Z.of_N (Py.code c) - 48)) s'
      else None
  | EmptyString => Some acc
  end.

(** The text before and after the first ["."]. *)
Fixpoint split_dot (s : string) : option (string * string) :=
  match s with
  | String c s' =>
      if Ascii.eqb c "."
      then Some (EmptyString, s')
      else match split_dot s' with
           | Some (a, b) => Some (String c a, b)
           | None => None
           end
  | EmptyString => None
  end.

(** [float(s)] for a text [s] of the shape digits ["."] digits, the only
    shape the script converts: the decimal value, correctly rounded.
    [None] stands for the [ValueError] of any other text. *)
Definition of_str (s : string) : option spec_float :=
  match split_dot s with
  | Some (String a ip, String b fp) =>
      match digits_value 0 (String a ip ++ String b fp) with
      | Some (Zpos n) =>
          Some (of_ratio n (Pos.pow 10 (Pos.of_nat (String.length (String b fp)))))
      | Some _ => Some (S754_zero false)
      | None => None
      end
  | _ => None
  end.

(** The literal [0.1]. *)
Definition tenth : spec_float := of_ratio 1 10.

(** [10 * m * 2^e] rounded to an integer, ties to even. *)
Definition tenths (m : positive) (e : Z) : Z :=
  let n := 10 * Zpos m in
  if 0 <=? e then n * 2 ^ e
  else
    let d := 2 ^ (- e) in
    let q := n / d in
    match 2 * (n mod d) ?= d with
    | Lt => q
    | Gt => q + 1
    | Eq => if Z.even q then q else q + 1
    end.

Definition sign (s : bool) : string := if s then "-" else "".

(** [f"{x:.1f}"]: the exact value of [x] rounded to one fractional
    digit, ties to even. *)
Definition format_1f (x : spec_float) : string :=
  match x with
  | S754_nan => "nan"
  | S754_infinity s => sign s ++ "inf"
  | S754_zero s => sign s ++ "0.0"
  | S754_finite s m e =>
      let t := tenths m e in
      sign s ++ Py.str_of_N (Z.to_N (t / 10)) ++ "."
             ++ Py.str_of_N (Z.to_N (t mod 10))
  end.

(** [max(v :: vs)]: the first of the largest items. *)
Definition max (v : spec_float) (vs : list spec_float) : spec_float :=
  fold_left (fun m x => if ltb m x then x else m) vs v.

End Float64.

(** ** The version pattern *)

(** The longest run of digits at the head of [s], and what follows it. *)
Fixpoint span_digits (s : string) : string * string :=
  match s with
  | String c s' =>
      if Py.is_digit c
      then let '(d, r) := span_digits s' in (String c d, r)
      else (EmptyString, s)
  | EmptyString => (EmptyString, EmptyString)
  end.

(** [re.compile(r'update_(\d+\.\d+)').match(f)], as its group 1.  The
    match is anchored at the start of [f] only.  Both [\d+] are greedy and
    what follows each is not a digit, so the only match takes the two
    longest runs of digits. *)
Definition pattern_match (f : string) : option string :=
  match Py.startswith "update_" f with
  | Some r =>
      match span_digits r with
      | (String a ip, String dot r') =>
          if Ascii.eqb dot "."
          then match span_digits r' with
               | (String b fp, _) => Some (String a ip ++ "." ++ String b fp)
               | _ => None
               end
          else None
      | _ => None
      end
  | None => None
  end.

(** ** The world around the script *)

(** What a file holds.  The ZIP container and its deflate coding belong to
    [zipfile]: an archive on disk is modelled by the members it reads back
    to, each a name and the content stored under it. *)
Inductive content :=
  | Raw (bytes : string)
  | Zip (members : list member)
with member :=
  | Member (arcname : string) (data : content).

Inductive node :=
  | File (c : content)
  | Dir.

(** The local date, as [datetime.now()] gives it. *)
Record date := { year : N; month : N; day : N }.

(** What [check_output] does with a command line: the standard output of
    a process that ended with status zero, or a [CalledProcessError],
    carried as its [str]. *)
Inductive completed :=
  | Output (out : string)
  | Failed (e : string).

(** The collaborators that the script only reads: the git executable, the
    clock, and the size in bytes that [zipfile] gives an archive.  The
    answers of git do not depend on the working tree, which is all that
    the script changes.  The paths that [git diff --name-only] prints are
    relative to the project root and normalised. *)
Record env := {
  check_output : list string -> completed;
  now : date;
  archive_size : list member -> Z
}.

(** The state the script changes.  The file system is a flat map from
    absolute path texts to nodes: two spellings of one path are two keys,
    and the directories above a node are not recorded with it. *)
Record world := {
  fs : gmap string node;
  cwd : string;
  stdout : list string
}.

Inductive exn :=
  | SystemExit (status : Z)
  | FileExistsError (path : string)
  | FileNotFoundError (path : string)
  | NotADirectoryError (path : string)
  | IsADirectoryError (path : string)
  | ValueError (text : string).

Inductive outcome (A : Type) :=
  | Ret (a : A)
  | Raise (e : exn).
Arguments Ret {A} a.
Arguments Raise {A} e.

(** A computation of the script: it reads and changes the world, and ends
    with a value or with an exception. *)
Definition M (A : Type) : Type := world -> outcome A * world.

Definition ret {A} (a : A) : M A := fun w => (Ret a, w).

Definition bind {A B} (m : M A) (k : A -> M B) : M B :=
  fun w =>
    match m w with
    | (Ret a, w') => k a w'
    | (Raise e, w') => (Raise e, w')
    end.

Definition raise {A} (e : exn) : M A := fun w => (Raise e, w).

Notation "'do' x <- m ; k" := (bind m (fun x => k))
  (at level 10, x name, m at level 100, k at level 200).
Notation "m ;; k" := (bind m (fun _ => k))
  (at level 100, k at level 200, right associativity).

Definition print (line : string) : M unit :=
  fun w => (Ret tt, {| fs := fs w; cwd := cwd w; stdout := stdout w ++ [line] |}).

(** [sys.exit(status)] *)
Definition sys_exit {A} (status : Z) : M A := raise (SystemExit status).

(** *** Paths and the file system *)

(** [os.path.join(a, b)] *)
Definition os_path_join (a b : string) : string :=
  match Py.startswith "/" b with
  | Some _ => b
  | None =>
      match a with
      | EmptyString => b
      | _ => if Py.endswith_char "/" a then a ++ b else a ++ "/" ++ b
      end
  end.

(** The absolute path that [p] names in the directory [d]. *)
Definition resolve (d p : string) : string := os_path_join d p.

Definition lookup_path (w : world) (p : string) : option node :=
  fs w !! resolve (cwd w) p.

Definition set_node (p : string) (n : node) (w : world) : world :=
  {| fs := <[resolve (cwd w) p := n]> (fs w); cwd := cwd w; stdout := stdout w |}.

(** [os.chdir(d)], for the directory that git reports. *)
Definition os_chdir (d : string) : M unit :=
  fun w => (Ret tt, {| fs := fs w; cwd := resolve (cwd w) d; stdout := stdout w |}).

(** [os.path.isfile(p)] *)
Definition os_path_isfile (p : string) : M bool :=
  fun w =>
    (Ret match lookup_path w p with Some (File _) => true | _ => false end, w).

(** [os.makedirs(p, exist_ok=True)] *)
Definition os_makedirs (p : string) : M unit :=
  fun w =>
    match p with
    | EmptyString => (Raise (FileNotFoundError p), w)
    | _ =>
        match lookup_path w p with
        | Some Dir => (Ret tt, w)
        | Some (File _) => (Raise (FileExistsError p), w)
        | None => (Ret tt, set_node p Dir w)
        end
    end.

Definition has_slash (s : string) : bool :=
  existsb (Ascii.eqb "/") (list_ascii_of_string s).

(** A directory path ready to be followed by a name. *)
Definition dir_prefix (d : string) : string :=
  if Py.endswith_char "/" d then d else d ++ "/".

(** The name under which the key [k] is listed in the directory [d]. *)
Definition child_name (d k : string) : option string :=
  match Py.startswith (dir_prefix d) k with
  | Some (String c n) => if has_slash (String c n) then None else Some (String c n)
  | _ => None
  end.

(** The names listed in the directory [p], in the order of the map. *)
Definition children (w : world) (p : string) : list string :=
  omap (fun kn => child_name (resolve (cwd w) p) (fst kn)) (map_to_list (fs w)).

(** [os.listdir(p)] *)
Definition os_listdir (p : string) : M (list string) :=
  fun w =>
    match lookup_path w p with
    | Some Dir => (Ret (children w p), w)
    | Some (File _) => (Raise (NotADirectoryError p), w)
    | None => (Raise (FileNotFoundError p), w)
    end.

Definition size_of (E : env) (c : content) : Z :=
  match c with
  | Raw bytes => Z.of_nat (String.length bytes)
  | Zip members => archive_size E members
  end.

(** [os.path.getsize(p)]; the size of a directory is the file system's
    own and is not asked for by the script. *)
Definition os_path_getsize (E : env) (p : string) : M Z :=
  fun w =>
    match lookup_path w p with
    | Some (File c) => (Ret (size_of E c), w)
    | Some Dir => (Ret 4096, w)
    | None => (Raise (FileNotFoundError p), w)
    end.

(** [[f for f in files if os.path.isfile(f)]] *)
Fixpoint keep_files (files : list string) : M (list string) :=
  match files with
  | [] => ret []
  | f :: rest =>
      do b <- os_path_isfile f;
      do kept <- keep_files rest;
      ret (if b then f :: kept else kept)
  end.

(** ** The script *)

Section Script.

Variable E : env.

Definition get_git_root : M string :=
  match check_output E ["git"; "rev-parse"; "--show-toplevel"] with
  | Output out => ret (Py.strip out)
  | Failed _ => print "Error: Not a Git repository" ;; sys_exit 1
  end.

Definition get_changed_files (base_ref head_ref : string) : M (list string) :=
  let cmd := ["git"; "diff"; "--name-only"; "--diff-filter=d";
              base_ref ++ ".." ++ head_ref] in
  match check_output E cmd with
  | Output out => keep_files (Py.splitlines out)
  | Failed e => print ("Error running git diff: " ++ e) ;; sys_exit 1
  end.

Definition get_latest_tag : option string :=
  match check_output E ["git"; "describe"; "--abbrev=0"; "--tags"] with
  | Output out => Some (Py.strip out)
  | Failed _ => None
  end.

Definition get_commit_message (base_ref head_ref : string) : string :=
  match check_output E ["git"; "log"; base_ref ++ ".." ++ head_ref; "--pretty=%s"] with
  | Output out => Py.replace Py.LF " |" (Py.strip out)
  | Failed _ => ""
  end.

(** The loop of [get_next_version] over the listing: [versions] grows
    by the float of every name that the pattern matches. *)
Fixpoint scan_versions (names : list string) (versions : list spec_float)
  : M (list spec_float) :=
  match names with
  | [] => ret versions
  | f :: rest =>
      match pattern_match f with
      | Some group1 =>
          match Float64.of_str group1 with
          | Some v => scan_versions rest (versions ++ [v])
          | None => raise (ValueError group1)
          end
      | None => scan_versions rest versions
      end
  end.

(** [max(versions) + 0.1 if versions else 0.1] *)
Definition next_after (versions : list spec_float) : spec_float :=
  match versions with
  | v :: vs => Float64.add (Float64.max v vs) Float64.tenth
  | [] => Float64.tenth
  end.

Definition get_next_version (output_dir : string) : M spec_float :=
  do names <- os_listdir output_dir;
  do versions <- scan_versions names [];
  ret (next_after versions).

(** [datetime.now().strftime('%Y%m%d')], for a year of four digits. *)
Definition strftime_Ymd (d : date) : string :=
  Py.zfill 4 (Py.str_of_N (year d)) ++ Py.zfill 2 (Py.str_of_N (month d))
    ++ Py.zfill 2 (Py.str_of_N (day d)).

(** [zipf.write(file)] for every file in turn, with its progress line.
    A path that git prints is relative and normalised, so it is its own
    name in the archive.  The result is the members written, and the
    exception that stopped the loop if one did. *)
Fixpoint zip_write_all (files : list string) (members : list member) (w : world)
  : list member * option exn * world :=
  match files with
  | [] => (members, None, w)
  | file :: rest =>
      match lookup_path w file with
      | Some (File c) =>
          match print ("Added: " ++ file) w with
          | (_, w') => zip_write_all rest (members ++ [Member file c]) w'
          end
      | Some Dir =>
          match print ("Added: " ++ file) w with
          | (_, w') => zip_write_all rest (members ++ [Member (file ++ "/") (Raw "")]) w'
          end
      | None => (members, Some (FileNotFoundError file), w)
      end
  end.

(** [with zipfile.ZipFile(zip_path, 'w', zipfile.ZIP_DEFLATED) as zipf]:
    opening truncates or creates the file, members are read from the
    disk as it is then, and leaving the block, by its end or by an
    exception, closes the archive over the members written.  Until then
    the path of the archive holds the empty file that opening has left:
    what the library has already flushed of earlier members is not
    modelled.  The directory of [zip_path] is not looked at; [main] has
    made it. *)
Definition with_ZipFile_w (zip_path : string) (files : list string) : M unit :=
  fun w =>
    match lookup_path w zip_path with
    | Some Dir => (Raise (IsADirectoryError zip_path), w)
    | _ =>
        match zip_write_all files [] (set_node zip_path (File (Raw "")) w) with
        | (members, None, w') => (Ret tt, set_node zip_path (File (Zip members)) w')
        | (members, Some e, w') => (Raise e, set_node zip_path (File (Zip members)) w')
        end
    end.

Definition zip_name_of (version : spec_float) (message : string) : string :=
  let sanitized_msg := sanitize_filename (Py.slice_to 20 message) in
  let timestamp := strftime_Ymd (now E) in
  "update_" ++ Float64.format_1f version ++ "_" ++ timestamp ++ "_"
    ++ sanitized_msg ++ ".zip".

Definition create_update_zip (files : list string) (output_dir : string)
    (version : spec_float) (message : string) : M string :=
  let zip_name := zip_name_of version message in
  let zip_path := os_path_join output_dir zip_name in
  with_ZipFile_w zip_path files ;;
  ret zip_path.

(** The parsed command line. *)
Record args := { output : string; base : option string; head : string }.

(** [parser.parse_args()] on the three options, each given or not. *)
Definition parse_args (o b h : option string) : args :=
  {| output := default "updates" o; base := b; head := default "HEAD" h |}.

(** [a or b] where [b] is a text. *)
Definition or_str (a : option string) (b : string) : string :=
  match Py.or_else a (Some b) with
  | Some s => s
  | None => b
  end.

(** [args.base or get_latest_tag() or 'HEAD~1'] *)
Definition resolve_base (a : args) : string :=
  or_str (Py.or_else (base a) get_latest_tag) "HEAD~1".

(** [get_commit_message(base_ref, head_ref) or f"{base_ref}_to_{head_ref}"] *)
Definition message_or_label (base_ref head_ref : string) : string :=
  or_str (Some (get_commit_message base_ref head_ref))
         (base_ref ++ "_to_" ++ head_ref).

Definition main (a : args) : M unit :=
  do git_root <- get_git_root;
  os_chdir git_root ;;
  let base_ref := resolve_base a in
  let head_ref := head a in
  os_makedirs (output a) ;;
  do changed_files <- get_changed_files base_ref head_ref;
  match changed_files with
  | [] =>
      print ("No changed files found between " ++ base_ref ++ " and " ++ head_ref)
  | _ =>
      do version <- get_next_version (output a);
      let commit_message := message_or_label base_ref head_ref in
      print ("Creating update package v" ++ Float64.format_1f version) ;;
      print ("Changes from " ++ base_ref ++ " to " ++ head_ref) ;;
      print ("Files count: " ++ Py.str_of_N (N.of_nat (length changed_files))) ;;
      do zip_path <- create_update_zip changed_files (output a) version commit_message;
      print (String Py.LF "Update package created: " ++ zip_path) ;;
      do size <- os_path_getsize E zip_path;
      print ("Size: "
             ++ Float64.format_1f (Float64.true_div size 1024)
             ++ " KB")
  end.

(** The exit status of the process: 0 when [main] returns, the status
    given to [sys.exit], 1 for an exception that nothing catches. *)
Definition exit_status {A} (o : outcome A) : Z :=
  match o with
  | Ret _ => 0
  | Raise (SystemExit status) => status
  | Raise _ => 1
  end.

(** A run of the script from the world [w]. *)
Definition run (a : args) (w : world) : Z * world :=
  let '(o, w') := main a w in (exit_status o, w').

End Script.

(** ** Notions used by the statements *)

(** *** Texts *)

(** A text of letters, digits, underscores and hyphens only. *)
Fixpoint all_allowed (s : string) : bool :=
  match s with
  | String c s' => allowed c && all_allowed s'
  | EmptyString => true
  end.

Fixpoint all_digits (s : string) : bool :=
  match s with
  | String c s' => Py.is_digit c && all_digits s'
  | EmptyString => true
  end.

(** What follows a run of digits that cannot be made longer. *)
Definition no_digit_ahead (r : string) : Prop :=
  match r with
  | String c _ => Py.is_digit c = false
  | EmptyString => True
  end.

(** [line] ends with the text [e]. *)
Fixpoint ends_with (e line : string) : bool :=
  String.eqb e line
  || match line with
     | String _ rest => ends_with e rest
     | EmptyString => false
     end.

(** A text followed by a line feed, as git prints it. *)
Definition line (s : string) : string := s ++ String Py.LF "".

(** *** References *)

(** The command lines of the two queries that take the pair of references. *)
Definition git_diff (base_ref head_ref : string) : list string :=
  ["git"; "diff"; "--name-only"; "--diff-filter=d"; base_ref ++ ".." ++ head_ref].

Definition git_log (base_ref head_ref : string) : list string :=
  ["git"; "log"; base_ref ++ ".." ++ head_ref; "--pretty=%s"].

(** The name of the latest tag, when git finds one. *)
Definition tag_if_any (E : env) : option string :=
  match check_output E ["git"; "describe"; "--abbrev=0"; "--tags"] with
  | Output out =>
      match Py.strip out with
      | EmptyString => None
      | t => Some t
      end
  | Failed _ => None
  end.

(** The base reference in the words of the specification: the latest tag
    if there is one, otherwise the parent of head, which git writes
    [<head>~1]. *)
Definition spec_resolve_base (tag : option string) (head_ref : string) : string :=
  match tag with
  | Some t => t
  | None => head_ref ++ "~1"
  end.

(** *** Versions *)

(** The version that a name carries; a name that the pattern does not
    match carries none. *)
Definition version_of_name (f : string) : option spec_float :=
  match pattern_match f with
  | Some group1 => Float64.of_str group1
  | None => None
  end.

(** The versions that the names of a listing carry, in its order. *)
Definition versions_in (names : list string) : list spec_float :=
  omap version_of_name names.

(** The file names that the pattern recognises as artifacts: [update_],
    digits, a dot, digits, and then anything that does not go on with a
    digit. *)
Definition artifact_name (f ip fp rest : string) : Prop :=
  f = "update_" ++ ip ++ "." ++ fp ++ rest
  /\ ip <> "" /\ fp <> ""
  /\ all_digits ip = true /\ all_digits fp = true
  /\ no_digit_ahead rest.

(** The texts of the versions with one fractional digit, by their number
    of tenths: [version_text 13] is ["1.3"]. *)
Definition version_text (k : N) : string :=
  Py.str_of_N (k / 10) ++ "." ++ Py.str_of_N (k mod 10).

(** After an artifact of [k] tenths, the next version reads [k + 1] tenths. *)
Definition advances (k : N) : bool :=
  match Float64.of_str (version_text k) with
  | Some v =>
      String.eqb (Float64.format_1f (Float64.add v Float64.tenth)) (version_text (k + 1))
  | None => false
  end.

Fixpoint all_below (n : nat) (p : N -> bool) : bool :=
  match n with
  | O => true
  | S n' => p (N.of_nat n') && all_below n' p
  end.

(** *** Runs *)

(** The steps of [main] before the change set is asked for: the project
    root, the working directory, the output directory. *)
Definition prepare (E : env) (a : args) : M unit :=
  do git_root <- get_git_root E;
  os_chdir git_root ;;
  os_makedirs (output a).

(** The world once the script has moved to the project root. *)
Definition entered (root : string) (w : world) : world :=
  {| fs := fs w; cwd := resolve (cwd w) root; stdout := stdout w |}.

(** [p] names a regular file. *)
Definition is_file (w : world) (p : string) : bool :=
  match lookup_path w p with
  | Some (File _) => true
  | _ => false
  end.

(** What the regular file [p] holds; nothing for any other path. *)
Definition content_at (w : world) (p : string) : content :=
  match lookup_path w p with
  | Some (File c) => c
  | _ => Raw ""
  end.

(** The version that [main] allocates in the world [w], and the path of
    the archive it then writes. *)
Definition next_version (w : world) (dir : string) : spec_float :=
  next_after (versions_in (children w dir)).

Definition archive_path (E : env) (a : args) (w : world) : string :=
  os_path_join (output a)
    (zip_name_of E (next_version w (output a))
       (message_or_label E (resolve_base E a) (head a))).

(** The world in which the members of the archive are read: the archive
    itself has just been opened for writing. *)
Definition archive_opened (E : env) (a : args) (w : world) : world :=
  set_node (archive_path E a w) (File (Raw "")) w.

(** The lines that a run prints when it packages [files]. *)
Definition progress (E : env) (a : args) (w : world) (files : list string)
    (members : list member) : list string :=
  ["Creating update package v" ++ Float64.format_1f (next_version w (output a));
   "Changes from " ++ resolve_base E a ++ " to " ++ head a;
   "Files count: " ++ Py.str_of_N (N.of_nat (length files))]
  ++ map (fun f => "Added: " ++ f) files
  ++ [String Py.LF "Update package created: " ++ archive_path E a w;
      "Size: " ++ Float64.format_1f (Float64.true_div (archive_size E members) 1024)
        ++ " KB"].

(** A printed line carries the error text [e]. *)
Definition reports (e : string) (w : world) : bool :=
  existsb (ends_with e) (stdout w).

(** *** Two sentences of the specification, as it words them *)

(** On a failing query: the run ends with a status other than 0 and a
    diagnostic that carries the error. *)
Definition fatal_when_failing (E : env) (a : args) (w : world) (cmd : list string) : Prop :=
  forall e, check_output E cmd = Failed e ->
    exists status w', run E a w = (status, w') /\ status <> 0 /\ reports e w' = true.


(** ** Example projects *)

(** The date of the scenarios. *)
Definition ides_of_march : date := {| year := 2024; month := 3; day := 15 |}.

Definition status_128 : string := "Command returned non-zero exit status 128.".

(** The command lines of the examples. *)
Definition no_options : args := parse_args None None None.
Definition head_feature : args := parse_args None None (Some "feature").
Definition from_v1_0_to_main : args := parse_args None (Some "v1.0") (Some "main").

(** A checkout of one file, with the shell in a directory of the project. *)
Definition checkout : world :=
  {| fs := {[ "/repo/src/a.py" := File (Raw "print(1)") ]};
     cwd := "/repo/src";
     stdout := [] |}.

(** [checkout] once prepared for the output directory [updates]. *)
Definition prepared : world :=
  {| fs := <["/repo/updates" := Dir]> (fs checkout); cwd := "/repo"; stdout := [] |}.

(** A repository without tags and without commits: git finds the project
    root and fails on every other query. *)
Definition untagged : env :=
  {| check_output := fun cmd =>
       if decide (cmd = ["git"; "rev-parse"; "--show-toplevel"]) then Output (line "/repo")
       else Failed status_128;
     now := ides_of_march;
     archive_size := fun _ => 0 |}.

(** A repository whose last commit only removed a file. *)
Definition nothing_changed : env :=
  {| check_output := fun cmd =>
       if decide (cmd = ["git"; "rev-parse"; "--show-toplevel"]) then Output (line "/repo")
       else if decide (cmd = git_diff "HEAD~1" "HEAD") then Output (line "gone.txt")
       else Failed status_128;
     now := ides_of_march;
     archive_size := fun _ => 0 |}.

(** A repository in which the diff between [v1.0] and [HEAD] names one
    file and the query for the commit subjects fails. *)
Definition log_fails : env :=
  {| check_output := fun cmd =>
       if decide (cmd = ["git"; "rev-parse"; "--show-toplevel"]) then Output (line "/repo")
       else if decide (cmd = ["git"; "describe"; "--abbrev=0"; "--tags"]) then Output (line "v1.0")
       else if decide (cmd = git_diff "v1.0" "HEAD") then Output (line "src/a.py")
       else Failed status_128;
     now := ides_of_march;
     archive_size := fun _ => 2345 |}.

(** Scenario A: one commit since [v1.0], which changed a file and removed
    another. *)
Definition scenario_A : env :=
  {| check_output := fun cmd =>
       if decide (cmd = ["git"; "rev-parse"; "--show-toplevel"]) then Output (line "/repo")
       else if decide (cmd = ["git"; "describe"; "--abbrev=0"; "--tags"]) then Output (line "v1.0")
       else if decide (cmd = git_diff "v1.0" "HEAD") then Output (line "src/a.py" ++ line "gone.txt")
       else if decide (cmd = git_log "v1.0" "HEAD") then Output (line "Fix bug in parser")
       else Failed status_128;
     now := ides_of_march;
     archive_size := fun _ => 2345 |}.

(** Scenario B: an output directory with two earlier artifacts, a file
    that is none, and an artifact one directory further down. *)
Definition artifact_1_3 : string := "update_1.3_20240101_x.zip".
Definition artifact_0_9 : string := "update_0.9_20240102_y.zip".

Definition world_B : world :=
  {| fs := {[ "/repo/updates" := Dir;
              "/repo/updates/update_1.3_20240101_x.zip" := File (Zip []);
              "/repo/updates/update_0.9_20240102_y.zip" := File (Zip []);
              "/repo/updates/notes.txt" := File (Raw "see the changelog");
              "/repo/updates/old/update_7.0_20230101_z.zip" := File (Zip []) ]};
     cwd := "/repo";
     stdout := [] |}.

(** Scenario C: the references [v1.0] and [main] with a changed file and
    no commit subject between them. *)
Definition scenario_C : env :=
  {| check_output := fun cmd =>
       if decide (cmd = ["git"; "rev-parse"; "--show-toplevel"]) then Output (line "/repo")
       else if decide (cmd = git_diff "v1.0" "main") then Output (line "src/a.py")
       else if decide (cmd = git_log "v1.0" "main") then Output (line "")
       else Failed status_128;
     now := ides_of_march;
     archive_size := fun _ => 2345 |}.

(** The worlds in which the runs of scenarios A and C end. *)
Definition after_A : world := snd (run scenario_A no_options checkout).
Definition after_C : world := snd (run scenario_C from_v1_0_to_main checkout).




(** ** Notions used by the further properties *)

(** The character [c] occurs in [s]. *)
Fixpoint occurs (c : ascii) (s : string) : bool :=
  match s with
  | String d s' => Ascii.eqb d c || occurs c s'
  | EmptyString => false
  end.

(** What [git log --pretty=%s] prints for a list of commit subjects: each
    subject on a line of its own. *)
Fixpoint subject_lines (subjects : list string) : string :=
  match subjects with
  | [] => ""
  | s :: rest => s ++ String Py.LF (subject_lines rest)
  end.

(** A project whose output path [updates] is a regular file. *)
Definition output_in_the_way : world :=
  {| fs := {[ "/repo/src/a.py" := File (Raw "print(1)");
              "/repo/updates" := File (Raw "release notes") ]};
     cwd := "/repo";
     stdout := [] |}.

(** A directory that is in no repository: every query of git fails. *)
Definition no_repository : env :=
  {| check_output := fun _ => Failed status_128;
     now := ides_of_march;
     archive_size := fun _ => 0 |}.

(** A version that is finite and not negative: the only ones the script
    renders as digits, a dot and a digit. *)
Definition finite_nonneg (v : spec_float) : bool :=
  match v with
  | S754_zero false | S754_finite false _ _ => true
  | _ => false
  end.

(** A float that is a number and is not negative: zero, a positive
    finite float or plus infinity. *)
Definition nonneg (v : spec_float) : bool :=
  match v with
  | S754_zero false | S754_infinity false | S754_finite false _ _ => true
  | _ => false
  end.

(** The float of [k + 1] tenths is above the float of [k] tenths. *)
Definition rises (k : N) : bool :=
  match Float64.of_str (version_text k), Float64.of_str (version_text (k + 1)) with
  | Some x, Some y => Float64.ltb x y
  | _, _ => false
  end.

(** The name of the archive that [main] writes in the world [w]. *)
Definition archive_name (E : env) (a : args) (w : world) : string :=
  zip_name_of E (next_version w (output a))
    (message_or_label E (resolve_base E a) (head a)).


(** * Properties *)

(** Closed equations on the example projects are settled by running the
    script. *)
Ltac run_it := vm_compute; reflexivity.

(** ** Sanitization *)

Lemma replace_space_allowed (s : string) :
  all_allowed s = true -> Py.replace " " "_" s = s.
Proof.
  induction s as [|c s IH]; simpl; [reflexivity|].
  intros [Hc Hs]%andb_true_iff.
  destruct (Ascii.eqb_spec c " ") as [->|_].
  - discriminate Hc.
  - now rewrite IH.
Qed.

Lemma re_sub_allowed (s : string) :
  all_allowed s = true -> re_sub_disallowed s = s.
Proof.
  induction s as [|c s IH]; simpl; [reflexivity|].
  intros [Hc Hs]%andb_true_iff. now rewrite Hc, IH.
Qed.

Lemma slice_to_allowed (n : nat) (s : string) :
  all_allowed s = true -> all_allowed (Py.slice_to n s) = true.
Proof.
  revert s; induction n as [|n IH]; intros [|c s]; simpl; try reflexivity.
  intros [Hc Hs]%andb_true_iff. now rewrite Hc, IH.
Qed.

Lemma re_sub_all_allowed (s : string) : all_allowed (re_sub_disallowed s) = true.
Proof.
  induction s as [|c s IH]; simpl; [reflexivity|].
  destruct (allowed c) eqn:Hc; simpl; [now rewrite Hc|exact IH].
Qed.

Lemma sanitize_fixpoint (s : string) :
  all_allowed s = true -> sanitize_filename s = s.
Proof.
  intros H. unfold sanitize_filename.
  now rewrite (replace_space_allowed s H), re_sub_allowed.
Qed.

(** Sanitizing twice is sanitizing once, on any text. *)
Lemma sanitize_idempotent (s : string) :
  sanitize_filename (sanitize_filename s) = sanitize_filename s.
Proof. apply sanitize_fixpoint, re_sub_all_allowed. Qed.

(** C7. A text made only of letters, digits, underscores and hyphens comes
    out of the message sanitization of [create_update_zip] as its own
    first twenty characters. *)
Theorem sanitize_sanitized (s : string) :
  all_allowed s = true ->
  sanitize_filename (Py.slice_to 20 s) = Py.slice_to 20 s.
Proof. intros H. now apply sanitize_fixpoint, slice_to_allowed. Qed.

Lemma sanitize_sanitized_witness :
  all_allowed "release-2024_candidate_build-7" = true
  /\ sanitize_filename (Py.slice_to 20 "release-2024_candidate_build-7")
     = "release-2024_candida".
Proof.
  split; [reflexivity|].
  exact (sanitize_sanitized "release-2024_candidate_build-7" eq_refl).
Defined.

(** ** The base reference *)

Lemma resolve_base_no_base (E : env) (a : args) :
  Py.truthy (base a) = false ->
  resolve_base E a = default "HEAD~1" (tag_if_any E).
Proof.
  intros Hb. unfold resolve_base, or_str, Py.or_else, tag_if_any, get_latest_tag.
  rewrite Hb.
  destruct (check_output E _) as [out|e]; simpl; [|reflexivity].
  destruct (Py.strip out); reflexivity.
Qed.

(** C10. An empty [--base] resolves as no [--base] at all: to the latest
    tag when git finds one, to [HEAD~1] otherwise. *)
Theorem empty_base_as_omitted (E : env) (o h : option string) :
  resolve_base E (parse_args o (Some "") h) = resolve_base E (parse_args o None h)
  /\ resolve_base E (parse_args o (Some "") h) = default "HEAD~1" (tag_if_any E).
Proof.
  rewrite !resolve_base_no_base by reflexivity. split; reflexivity.
Qed.

(** With no tag and the head [feature], the base is the parent of the
    current checkout, not the parent of [feature]. *)
Lemma base_is_not_parent_of_head :
  tag_if_any untagged = None
  /\ resolve_base untagged head_feature = "HEAD~1"
  /\ spec_resolve_base (tag_if_any untagged) (head head_feature) = "feature~1"
  /\ resolve_base untagged head_feature
     <> spec_resolve_base (tag_if_any untagged) (head head_feature).
Proof. repeat split. discriminate. Qed.

(** C2, as the script has it. Without a base, the base is the latest tag
    when git finds one and the fixed reference [HEAD~1] otherwise,
    whatever the head; that is the parent of head when head is left to its
    default [HEAD]. *)
Theorem base_without_base_option (E : env) (o h : option string) :
  resolve_base E (parse_args o None h) = default "HEAD~1" (tag_if_any E)
  /\ resolve_base E (parse_args o None None)
     = spec_resolve_base (tag_if_any E) (head (parse_args o None None)).
Proof.
  rewrite !resolve_base_no_base by reflexivity. split; [reflexivity|].
  destruct (tag_if_any E); reflexivity.
Qed.

(** ** The steps of the script *)

Lemma keep_files_spec (files : list string) (w : world) :
  keep_files files w = (Ret (List.filter (is_file w) files), w).
Proof.
  induction files as [|f files IH]; simpl; [reflexivity|].
  unfold bind, os_path_isfile, ret, is_file in *. rewrite IH.
  destruct (lookup_path w f) as [[c|]|]; reflexivity.
Qed.

Lemma get_changed_files_output (E : env) (b h out : string) (w : world) :
  check_output E (git_diff b h) = Output out ->
  get_changed_files E b h w = (Ret (List.filter (is_file w) (Py.splitlines out)), w).
Proof.
  intros H. unfold get_changed_files. fold (git_diff b h). rewrite H.
  apply keep_files_spec.
Qed.

Lemma get_changed_files_failed (E : env) (b h e : string) (w : world) :
  check_output E (git_diff b h) = Failed e ->
  get_changed_files E b h w
  = (Raise (SystemExit 1),
     {| fs := fs w; cwd := cwd w;
        stdout := stdout w ++ ["Error running git diff: " ++ e] |}).
Proof.
  intros H. unfold get_changed_files. fold (git_diff b h). rewrite H. reflexivity.
Qed.

(** Whatever git answers, the extraction leaves the disk as it is, and a
    change set it returns holds regular files only. *)
Lemma get_changed_files_inv (E : env) (b h : string) (w w' : world) (files : list string) :
  get_changed_files E b h w = (Ret files, w') ->
  w' = w /\ Forall (fun f => is_file w f = true) files.
Proof.
  destruct (check_output E (git_diff b h)) as [out|e] eqn:H.
  - rewrite (get_changed_files_output _ _ _ _ _ H). intros [= <- <-]. split; [reflexivity|].
    apply List.Forall_forall. intros f Hf. now apply filter_In in Hf.
  - rewrite (get_changed_files_failed _ _ _ _ _ H). discriminate.
Qed.

Lemma prepare_inv (E : env) (a : args) (w w1 : world) :
  prepare E a w = (Ret tt, w1) ->
  exists out,
    check_output E ["git"; "rev-parse"; "--show-toplevel"] = Output out
    /\ cwd w1 = resolve (cwd w) (Py.strip out)
    /\ stdout w1 = stdout w
    /\ output a <> ""
    /\ lookup_path w1 (output a) = Some Dir
    /\ (fs w1 = fs w \/ (fs w !! resolve (cwd w1) (output a) = None
                         /\ fs w1 = <[resolve (cwd w1) (output a) := Dir]> (fs w))).
Proof.
  unfold prepare, bind, get_git_root.
  destruct (check_output E _) as [out|e]; [|discriminate].
  exists out. split; [reflexivity|]. revert H. unfold ret, os_chdir, os_makedirs. simpl.
  destruct (output a) as [|c o] eqn:Ho; [discriminate|].
  unfold lookup_path; simpl.
  destruct (fs w !! _) as [[c'|]|] eqn:Hl; intros [= <-]; simpl.
  - repeat split; try done. now left.
  - repeat split; try done. + apply lookup_insert_eq. + right. done.
Qed.

(** ** The version pattern and the floats it yields *)

Lemma startswith_Some (p s r : string) :
  Py.startswith p s = Some r <-> s = p ++ r.
Proof.
  revert s; induction p as [|a p IH]; intros s; simpl.
  - split; [now intros [= ->]|now intros ->].
  - destruct s as [|b s]; [split; discriminate|].
    destruct (Ascii.eqb_spec a b) as [->|Hne].
    + rewrite IH. split; [now intros ->|now intros [= ->]].
    + split; [discriminate|]. intros [= -> _]. now destruct Hne.
Qed.

Lemma span_digits_spec (s d r : string) :
  span_digits s = (d, r) ->
  s = d ++ r /\ all_digits d = true /\ no_digit_ahead r.
Proof.
  revert d r; induction s as [|c s IH]; simpl; intros d r.
  - now intros [= <- <-].
  - destruct (Py.is_digit c) eqn:Hc.
    + destruct (span_digits s) as [d' r']. intros [= <- <-].
      destruct (IH _ _ eq_refl) as (-> & Hd & Hr). simpl. now rewrite Hc, Hd.
    + intros [= <- <-]. simpl. auto.
Qed.

Lemma span_digits_app (d r : string) :
  all_digits d = true -> no_digit_ahead r -> span_digits (d ++ r) = (d, r).
Proof.
  intros Hd Hr. induction d as [|c d IH]; simpl in *.
  - destruct r as [|c r]; [reflexivity|]. simpl in Hr. simpl. now rewrite Hr.
  - apply andb_true_iff in Hd as [Hc Hd]. now rewrite Hc, IH.
Qed.

Lemma dot_is_no_digit : Py.is_digit "." = false.
Proof. reflexivity. Qed.

Lemma split_dot_digits (d r : string) :
  all_digits d = true -> Float64.split_dot (d ++ "." ++ r) = Some (d, r).
Proof.
  induction d as [|c d IH]; simpl; [reflexivity|].
  intros [Hc Hd]%andb_true_iff.
  destruct (Ascii.eqb_spec c ".") as [->|_]; [discriminate Hc|].
  now rewrite IH.
Qed.

Lemma all_digits_app (a b : string) :
  all_digits (a ++ b) = all_digits a && all_digits b.
Proof. induction a as [|c a IH]; simpl; [reflexivity|]. now rewrite IH, andb_assoc. Qed.

Lemma digits_value_some (s : string) (acc : Z) :
  all_digits s = true -> 0 <= acc ->
  exists n, Float64.digits_value acc s = Some n /\ 0 <= n.
Proof.
  revert acc; induction s as [|c s IH]; simpl; intros acc Hs Hacc.
  - eauto.
  - apply andb_true_iff in Hs as [Hc Hs]. rewrite Hc. apply IH; [exact Hs|].
    unfold Py.is_digit in Hc. apply andb_true_iff in Hc as [Hlo _].
    apply N.leb_le in Hlo. lia.
Qed.

(** [float] accepts every text that the pattern captures. *)
Lemma of_str_digits (ip fp : string) :
  ip <> "" -> fp <> "" -> all_digits ip = true -> all_digits fp = true ->
  exists v, Float64.of_str (ip ++ "." ++ fp) = Some v.
Proof.
  intros Hip Hfp Di Df. unfold Float64.of_str.
  rewrite (split_dot_digits _ _ Di).
  destruct ip as [|a ip]; [congruence|]. destruct fp as [|b fp]; [congruence|].
  destruct (digits_value_some (String a ip ++ String b fp) 0) as (n & Hn & Hpos);
    [now rewrite all_digits_app, Di, Df|lia|].
  rewrite Hn. destruct n; eauto.
Qed.

(** The pattern matches the artifact names, and captures their version. *)
Lemma pattern_match_artifact (f ip fp rest : string) :
  artifact_name f ip fp rest -> pattern_match f = Some (ip ++ "." ++ fp).
Proof.
  intros (-> & Hip & Hfp & Di & Df & Hr). unfold pattern_match.
  replace (Py.startswith "update_" _) with (Some (ip ++ "." ++ fp ++ rest))
    by (symmetry; now apply startswith_Some).
  rewrite (span_digits_app ip ("." ++ fp ++ rest) Di dot_is_no_digit).
  destruct ip as [|a ip]; [congruence|]. simpl "++" at 1.
  cbv iota beta. change (("." ++ fp ++ rest)) with (String "." (fp ++ rest)).
  cbv iota beta. rewrite Ascii.eqb_refl.
  rewrite (span_digits_app fp rest Df Hr).
  destruct fp as [|b fp]; [congruence|]. reflexivity.
Qed.

(** It matches nothing else. *)
Lemma pattern_match_inv (f g : string) :
  pattern_match f = Some g ->
  exists ip fp rest, artifact_name f ip fp rest /\ g = ip ++ "." ++ fp.
Proof.
  unfold pattern_match.
  destruct (Py.startswith "update_" f) as [r|] eqn:Hp; [|discriminate].
  apply startswith_Some in Hp.
  destruct (span_digits r) as [ip r1] eqn:H1.
  destruct ip as [|a ip]; [discriminate|]. destruct r1 as [|dot r'] ; [discriminate|].
  destruct (Ascii.eqb_spec dot ".") as [->|]; [|discriminate].
  destruct (span_digits r') as [fp rest] eqn:H2.
  destruct fp as [|b fp]; [discriminate|]. intros [= <-].
  apply span_digits_spec in H1 as (-> & Di & _).
  apply span_digits_spec in H2 as (-> & Df & Hr).
  exists (String a ip), (String b fp), rest. split; [|reflexivity].
  repeat split; try done.
Qed.

Lemma version_of_name_matched (f g : string) :
  pattern_match f = Some g -> exists v, Float64.of_str g = Some v.
Proof.
  intros (ip & fp & rest & (_ & Hip & Hfp & Di & Df & _) & ->)%pattern_match_inv.
  now apply of_str_digits.
Qed.

(** The scan of a listing never raises: it collects the versions of the
    names that match and passes over the others. *)
Lemma scan_versions_spec (names : list string) (acc : list spec_float) (w : world) :
  scan_versions names acc w = (Ret (acc ++ versions_in names)%list, w).
Proof.
  revert acc; induction names as [|f names IH]; intros acc; simpl.
  - now rewrite app_nil_r.
  - unfold versions_in; simpl. unfold version_of_name at 1.
    destruct (pattern_match f) as [g|] eqn:Hm.
    + destruct (version_of_name_matched _ _ Hm) as [v Hv]. rewrite Hv. simpl.
      rewrite IH. now rewrite <- app_assoc.
    + simpl. apply IH.
Qed.

(** ** The next version *)

Lemma ltb_irrefl (x : spec_float) : Float64.ltb x x = false.
Proof.
  unfold Float64.ltb, SFltb, SFcompare.
  destruct x as [[]|[]| |[] m e]; try reflexivity;
    rewrite Z.compare_refl; fold (Pos.compare m m); rewrite Pos.compare_refl; reflexivity.
Qed.

Lemma ltb_trans (x y z : spec_float) :
  Float64.ltb x y = true -> Float64.ltb y z = true -> Float64.ltb x z = true.
Proof.
  unfold Float64.ltb, SFltb, SFcompare.
  destruct x as [[]|[]| |[] mx ex], y as [[]|[]| |[] my ey], z as [[]|[]| |[] mz ez];
    try discriminate; try reflexivity;
    fold (Pos.compare mx my); fold (Pos.compare my mz); fold (Pos.compare mx mz);
    destruct (Z.compare_spec ex ey); try discriminate;
    destruct (Z.compare_spec ey ez); try discriminate;
    destruct (Z.compare_spec ex ez); try reflexivity; try lia; subst;
    destruct (Pos.compare_spec mx my); try discriminate;
    destruct (Pos.compare_spec my mz); try discriminate;
    destruct (Pos.compare_spec mx mz); try reflexivity; try lia.
Qed.

Lemma max_from (vs seen : list spec_float) (m : spec_float) :
  In m seen -> (forall x, In x seen -> Float64.ltb m x = false) ->
  In (Float64.max m vs) (seen ++ vs)%list
  /\ forall x, In x (seen ++ vs)%list -> Float64.ltb (Float64.max m vs) x = false.
Proof.
  revert seen m; induction vs as [|v vs IH]; intros seen m Hin Hmax; simpl.
  - rewrite app_nil_r. auto.
  - replace (seen ++ v :: vs)%list with ((seen ++ [v]) ++ vs)%list
      by now rewrite <- app_assoc.
    unfold Float64.max in *. simpl. apply IH.
    + destruct (Float64.ltb m v); apply in_or_app; [right; now left|now left].
    + intros x [Hx|[<-|[]]]%in_app_or.
      * destruct (Float64.ltb m v) eqn:Hmv; [|now apply Hmax].
        destruct (Float64.ltb v x) eqn:Hvx; [|reflexivity].
        rewrite <- (Hmax x Hx). symmetry. now apply ltb_trans with v.
      * destruct (Float64.ltb m v) eqn:Hmv; [apply ltb_irrefl|exact Hmv].
Qed.

(** [max] returns an item that no item exceeds. *)
Lemma max_spec (v : spec_float) (vs : list spec_float) :
  In (Float64.max v vs) (v :: vs)
  /\ forall x, In x (v :: vs) -> Float64.ltb (Float64.max v vs) x = false.
Proof.
  apply (max_from vs [v] v); [now left|].
  intros x [<-|[]]. apply ltb_irrefl.
Qed.

Lemma get_next_version_spec (dir : string) (w : world) (names : list string) :
  os_listdir dir w = (Ret names, w) ->
  get_next_version dir w = (Ret (next_after (versions_in names)), w).
Proof.
  intros H. unfold get_next_version, bind. rewrite H.
  now rewrite (scan_versions_spec names [] w).
Qed.

(** A name that is no artifact name adds no version. *)
Lemma unrelated_ignored (f : string) (before after : list string) :
  (forall ip fp rest, ~ artifact_name f ip fp rest) ->
  versions_in (before ++ f :: after) = versions_in (before ++ after).
Proof.
  intros Hf. unfold versions_in. rewrite !omap_app. simpl.
  unfold version_of_name at 2.
  destruct (pattern_match f) as [g|] eqn:Hm; [|reflexivity].
  apply pattern_match_inv in Hm as (ip & fp & rest & Ha & _). now destruct (Hf ip fp rest).
Qed.

(** An artifact name adds the float of its version. *)
Lemma artifact_counted (f ip fp rest : string) :
  artifact_name f ip fp rest ->
  version_of_name f = Float64.of_str (ip ++ "." ++ fp)
  /\ exists v, version_of_name f = Some v.
Proof.
  intros Ha. unfold version_of_name. rewrite (pattern_match_artifact _ _ _ _ Ha).
  split; [reflexivity|].
  destruct Ha as (_ & Hip & Hfp & Di & Df & _). now apply of_str_digits.
Qed.

Lemma in_versions_in (x : spec_float) (names : list string) :
  In x (versions_in names) <-> exists f, In f names /\ version_of_name f = Some x.
Proof.
  unfold versions_in. rewrite <- list_elem_of_In, list_elem_of_omap.
  split; intros (f & Hf & Hx); exists f; split; try assumption;
    now apply list_elem_of_In.
Qed.


(** In scenario B the float that [get_next_version] returns is the one
    next above the float of 1.4; it reads 1.4 with one fractional digit. *)
Lemma scenario_B_float :
  next_after (versions_in [artifact_1_3; artifact_0_9])
  = S754_finite false 6305039478318695 (-52)
  /\ Float64.of_str "1.4" = Some (S754_finite false 6305039478318694 (-52))
  /\ Float64.format_1f (next_after (versions_in [artifact_1_3; artifact_0_9])) = "1.4".
Proof. repeat split; vm_compute; reflexivity. Qed.


(** For the versions from 0.0 to 999.9, those of one fractional digit that
    the script writes itself, the next version reads one tenth more.  From
    2^50 upwards the float sum with 0.1 no longer moves. *)
Lemma all_below_spec (n : nat) (p : N -> bool) (k : N) :
  all_below n p = true -> (k < N.of_nat n)%N -> p k = true.
Proof.
  induction n as [|n IH]; simpl; [lia|].
  intros [Hn Hall]%andb_true_iff Hk.
  destruct (N.eq_dec k (N.of_nat n)) as [->|Hne]; [exact Hn|].
  apply IH; [exact Hall|lia].
Qed.

Lemma tenths_advance (k : N) : (k < 10000)%N -> advances k = true.
Proof.
  intros Hk. apply (all_below_spec (N.to_nat 10000)); [vm_compute; reflexivity|].
  now rewrite N2Nat.id.
Qed.

(** ** Writing the archive *)

Lemma zip_write_all_spec (files : list string) (members : list member)
    (F : gmap string node) (C : string) (S : list string) :
  let w := {| fs := F; cwd := C; stdout := S |} in
  Forall (fun f => is_file w f = true) files ->
  zip_write_all files members w
  = (List.app members (map (fun f => Member f (content_at w f)) files), None,
     {| fs := F; cwd := C; stdout := List.app S (map (fun f => "Added: " ++ f) files) |}).
Proof.
  revert members S; induction files as [|f files IH]; intros members S w Hall; simpl.
  - now rewrite !app_nil_r.
  - apply Forall_cons in Hall as [Hf Hall]. unfold is_file in Hf.
    unfold content_at at 1.
    destruct (lookup_path w f) as [[c|]|] eqn:Hl; try discriminate.
    unfold print. simpl. rewrite IH by exact Hall.
    rewrite <- !app_assoc. reflexivity.
Qed.

(** ** The three ways a prepared run ends *)

Lemma main_from_prepare (E : env) (a : args) (w w1 : world) :
  prepare E a w = (Ret tt, w1) ->
  main E a w
  = (do changed_files <- get_changed_files E (resolve_base E a) (head a);
     match changed_files with
     | [] =>
         print ("No changed files found between " ++ resolve_base E a ++ " and " ++ head a)
     | _ =>
         do version <- get_next_version (output a);
         print ("Creating update package v" ++ Float64.format_1f version) ;;
         print ("Changes from " ++ resolve_base E a ++ " to " ++ head a) ;;
         print ("Files count: " ++ Py.str_of_N (N.of_nat (length changed_files))) ;;
         do zip_path <- create_update_zip E changed_files (output a) version
                          (message_or_label E (resolve_base E a) (head a));
         print (String Py.LF "Update package created: " ++ zip_path) ;;
         do size <- os_path_getsize E zip_path;
         print ("Size: "
                ++ Float64.format_1f (Float64.true_div size 1024)
                ++ " KB")
     end) w1.
Proof.
  unfold prepare, main, bind.
  destruct (get_git_root E w) as [[root|e] w0]; [|discriminate].
  destruct (os_chdir root w0) as [[[]|e] w0']; [|discriminate].
  destruct (os_makedirs (output a) w0') as [[[]|e] w1']; [|discriminate].
  now intros [= ->].
Qed.

(** A failing diff query ends the run with status 1 and the error. *)
Lemma main_diff_failed (E : env) (a : args) (w w1 : world) (e : string) :
  prepare E a w = (Ret tt, w1) ->
  check_output E (git_diff (resolve_base E a) (head a)) = Failed e ->
  run E a w
  = (1, {| fs := fs w1; cwd := cwd w1;
           stdout := stdout w1 ++ ["Error running git diff: " ++ e] |}).
Proof.
  intros Hp Hd. unfold run. rewrite (main_from_prepare _ _ _ _ Hp). unfold bind.
  now rewrite (get_changed_files_failed _ _ _ _ _ Hd).
Qed.

(** An empty change set ends the run with status 0 and one line. *)
Lemma main_no_changes (E : env) (a : args) (w w1 w2 : world) :
  prepare E a w = (Ret tt, w1) ->
  get_changed_files E (resolve_base E a) (head a) w1 = (Ret [], w2) ->
  run E a w
  = (0, {| fs := fs w1; cwd := cwd w1;
           stdout := stdout w1 ++ ["No changed files found between "
                                   ++ resolve_base E a ++ " and " ++ head a] |}).
Proof.
  intros Hp Hc. destruct (get_changed_files_inv _ _ _ _ _ _ Hc) as [-> _].
  unfold run. rewrite (main_from_prepare _ _ _ _ Hp). unfold bind.
  now rewrite Hc.
Qed.

Lemma is_file_opened (E : env) (a : args) (w : world) (f : string) :
  is_file w f = true -> is_file (archive_opened E a w) f = true.
Proof.
  unfold is_file, archive_opened, set_node, lookup_path. simpl.
  destruct (decide (resolve (cwd w) (archive_path E a w) = resolve (cwd w) f)) as [->|Hne].
  - now rewrite lookup_insert_eq.
  - now rewrite lookup_insert_ne.
Qed.

Lemma bind_Ret {A B : Type} (m : M A) (k : A -> M B) (w w' : world) (x : A) :
  m w = (Ret x, w') -> bind m k w = k x w'.
Proof. intros H. unfold bind. now rewrite H. Qed.

Lemma with_ZipFile_w_spec (zp : string) (files : list string)
    (F : gmap string node) (C : string) (S : list string) :
  let opened := {| fs := <[resolve C zp := File (Raw "")]> F; cwd := C; stdout := S |} in
  F !! resolve C zp <> Some Dir ->
  Forall (fun f => is_file opened f = true) files ->
  with_ZipFile_w zp files {| fs := F; cwd := C; stdout := S |}
  = (Ret tt,
     {| fs := <[resolve C zp :=
                  File (Zip (map (fun f => Member f (content_at opened f)) files))]> F;
        cwd := C;
        stdout := List.app S (map (fun f => "Added: " ++ f) files) |}).
Proof.
  intros opened Hdir Hall.
  pose proof (zip_write_all_spec files [] _ C S Hall) as Hz.
  unfold with_ZipFile_w, lookup_path, set_node. cbn [fs cwd stdout].
  destruct (F !! resolve C zp) as [[c|]|]; try congruence;
    rewrite Hz; cbn [fs cwd stdout]; rewrite insert_insert_eq; reflexivity.
Qed.

(** A change set that is not empty is packaged: the archive is written at
    [archive_path], over the members read while it was open. *)
Lemma main_packages (E : env) (a : args) (w w1 w2 : world) (files : list string) :
  prepare E a w = (Ret tt, w1) ->
  get_changed_files E (resolve_base E a) (head a) w1 = (Ret files, w2) ->
  files <> [] ->
  lookup_path w1 (archive_path E a w1) <> Some Dir ->
  let members := map (fun f => Member f (content_at (archive_opened E a w1) f)) files in
  run E a w
  = (0, {| fs := <[resolve (cwd w1) (archive_path E a w1) := File (Zip members)]> (fs w1);
           cwd := cwd w1;
           stdout := stdout w1 ++ progress E a w1 files members |}).
Proof.
  intros Hp Hc Hne Hdir members.
  destruct (get_changed_files_inv _ _ _ _ _ _ Hc) as [-> Hfiles].
  destruct (prepare_inv _ _ _ _ Hp) as (out & _ & _ & _ & _ & Hout & _).
  unfold run. rewrite (main_from_prepare _ _ _ _ Hp).
  rewrite (bind_Ret _ _ _ _ _ Hc).
  assert (Hm : forall X Y : M unit, match files with [] => X | _ => Y end = Y)
    by (destruct files; [congruence|reflexivity]).
  rewrite Hm. clear Hm.
  assert (Hl : os_listdir (output a) w1 = (Ret (children w1 (output a)), w1))
    by (unfold os_listdir; now rewrite Hout).
  rewrite (bind_Ret _ _ _ _ _ (get_next_version_spec _ _ _ Hl)).
  fold (next_version w1 (output a)).
  assert (Hopen : Forall (fun f => is_file (archive_opened E a w1) f = true) files).
  { eapply Forall_impl; [exact Hfiles|]. intros f. apply is_file_opened. }
  destruct w1 as [F C S]. unfold lookup_path in Hdir. cbn [fs cwd stdout] in Hdir |- *.
  do 3 (erewrite bind_Ret; [|reflexivity]).
  erewrite bind_Ret; cycle 1.
  { unfold create_update_zip.
    fold (archive_path E a {| fs := F; cwd := C; stdout := S |}).
    erewrite bind_Ret; [reflexivity|].
    apply with_ZipFile_w_spec; [exact Hdir|exact Hopen]. }
  erewrite bind_Ret; [|reflexivity].
  erewrite bind_Ret; cycle 1.
  { unfold os_path_getsize, lookup_path. cbn [fs cwd stdout].
    rewrite lookup_insert_eq. reflexivity. }
  unfold print, progress. cbn [fs cwd stdout size_of exit_status].
  rewrite <- !app_assoc. reflexivity.
Qed.

(** ** Paths *)

Lemma endswith_char_app (c : ascii) (a b : string) :
  b <> "" -> Py.endswith_char c (a ++ b) = Py.endswith_char c b.
Proof.
  intros Hb. induction a as [|x a IH]; [reflexivity|].
  change (Py.endswith_char c (String x (a ++ b)) = Py.endswith_char c b).
  cbn [Py.endswith_char]. rewrite IH. destruct (a ++ b) eqn:Hab; [|reflexivity].
  destruct a; [change (b = "") in Hab; congruence|discriminate].
Qed.

Lemma startswith_slash_app (a b : string) :
  a <> "" ->
  match Py.startswith "/" (a ++ b) with Some _ => true | None => false end
  = match Py.startswith "/" a with Some _ => true | None => false end.
Proof.
  intros Ha. destruct a as [|x a]; [congruence|].
  change (String x a ++ b) with (String x (a ++ b)). cbn [Py.startswith].
  now destruct (Ascii.eqb "/" x).
Qed.

Lemma string_app_assoc (a b c : string) : (a ++ b) ++ c = a ++ b ++ c.
Proof.
  induction a as [|x a IH]; [reflexivity|].
  change (String x ((a ++ b) ++ c) = String x (a ++ b ++ c)). now rewrite IH.
Qed.



(** A name joined to a directory is that name under that directory. *)
Lemma os_path_join_name (o n : string) :
  o <> "" -> Py.startswith "/" n = None ->
  os_path_join o n = dir_prefix o ++ n.
Proof.
  intros Ho Hn. unfold os_path_join, dir_prefix. rewrite Hn.
  destruct o as [|x o]; [congruence|].
  destruct (Py.endswith_char "/" (String x o)); [reflexivity|].
  now rewrite string_app_assoc.
Qed.

Lemma dir_prefix_resolve (C o : string) :
  o <> "" -> exists pre, resolve C o = pre ++ o /\ forall t, resolve C (o ++ t) = pre ++ o ++ t.
Proof.
  intros Ho. unfold resolve, os_path_join.
  pose proof (startswith_slash_app o) as Hs.
  destruct (Py.startswith "/" o) as [r|] eqn:Hso.
  - exists "". split; [reflexivity|]. intros t. specialize (Hs t Ho).
    now destruct (Py.startswith "/" (o ++ t)).
  - destruct C as [|x C].
    + exists "". split; [reflexivity|]. intros t. specialize (Hs t Ho).
      now destruct (Py.startswith "/" (o ++ t)).
    + destruct (Py.endswith_char "/" (String x C)).
      * exists (String x C). split; [reflexivity|]. intros t. specialize (Hs t Ho).
        now destruct (Py.startswith "/" (o ++ t)).
      * exists (String x C ++ "/"). split; [now rewrite string_app_assoc|].
        intros t. specialize (Hs t Ho).
        destruct (Py.startswith "/" (o ++ t)); [discriminate|].
        now rewrite string_app_assoc.
Qed.

(** The path of a name in a directory, resolved, is that name under the
    resolved directory; it is never the directory itself. *)
Lemma resolve_join (C o n : string) :
  o <> "" -> Py.startswith "/" n = None ->
  resolve C (os_path_join o n) = dir_prefix (resolve C o) ++ n.
Proof.
  intros Ho Hn. rewrite (os_path_join_name _ _ Ho Hn).
  destruct (dir_prefix_resolve C o Ho) as (pre & Hr & Happ).
  unfold dir_prefix at 1.
  destruct (Py.endswith_char "/" o) eqn:He.
  - rewrite Happ, Hr. unfold dir_prefix. rewrite endswith_char_app by exact Ho.
    rewrite He. now rewrite string_app_assoc.
  - rewrite string_app_assoc, Happ, Hr. unfold dir_prefix.
    rewrite endswith_char_app by exact Ho. rewrite He.
    now rewrite !string_app_assoc.
Qed.


(** ** What every prepared run does to the disk *)

Lemma dir_or_not (n : option node) : n = Some Dir \/ n <> Some Dir.
Proof. destruct n as [[c|]|]; (now left) || (now right). Qed.


Lemma main_archive_is_dir (E : env) (a : args) (w w1 w2 : world) (files : list string) :
  prepare E a w = (Ret tt, w1) ->
  get_changed_files E (resolve_base E a) (head a) w1 = (Ret files, w2) ->
  files <> [] ->
  lookup_path w1 (archive_path E a w1) = Some Dir ->
  exists w', run E a w = (1, w') /\ fs w' = fs w1 /\ cwd w' = cwd w1.
Proof.
  intros Hp Hc Hne Hdir.
  destruct (get_changed_files_inv _ _ _ _ _ _ Hc) as [-> _].
  destruct (prepare_inv _ _ _ _ Hp) as (out & _ & _ & _ & _ & Hout & _).
  unfold run. rewrite (main_from_prepare _ _ _ _ Hp).
  rewrite (bind_Ret _ _ _ _ _ Hc).
  assert (Hm : forall X Y : M unit, match files with [] => X | _ => Y end = Y)
    by (destruct files; [congruence|reflexivity]).
  rewrite Hm. clear Hm.
  assert (Hl : os_listdir (output a) w1 = (Ret (children w1 (output a)), w1))
    by (unfold os_listdir; now rewrite Hout).
  rewrite (bind_Ret _ _ _ _ _ (get_next_version_spec _ _ _ Hl)).
  fold (next_version w1 (output a)).
  destruct w1 as [F C S]. unfold lookup_path in Hdir. cbn [fs cwd stdout] in Hdir |- *.
  do 3 (erewrite bind_Ret; [|reflexivity]).
  unfold bind at 1. unfold create_update_zip.
  fold (archive_path E a {| fs := F; cwd := C; stdout := S |}).
  unfold bind at 1. unfold with_ZipFile_w, lookup_path. cbn [fs cwd stdout].
  rewrite Hdir. eexists. split; [reflexivity|]. split; reflexivity.
Qed.


Lemma ends_with_app (p e : string) : ends_with e (p ++ e) = true.
Proof.
  induction p as [|c p IH].
  - destruct e; simpl; [reflexivity|]. now rewrite Ascii.eqb_refl, String.eqb_refl.
  - change (ends_with e (String c (p ++ e)) = true). simpl. rewrite IH. apply orb_true_r.
Qed.

(** ** Failing queries *)

(** With the commit subjects out of reach the run still ends with status
    0: [get_commit_message] turns the failure into the empty summary. *)
Lemma log_failure_is_not_fatal :
  ~ fatal_when_failing log_fails no_options checkout
      (git_log "v1.0" "HEAD").
Proof.
  intros H. destruct (H _ eq_refl) as (status & w' & Hrun & Hst & _).
  vm_compute in Hrun. injection Hrun as <- _. now apply Hst.
Qed.

(** C1, as the script has it. When the diff query of the Change Set
    Extractor fails, the run ends with status 1 and prints the diagnostic
    [Error running git diff: ] followed by the error; nothing is written
    after the output directory.  A failure of the commit subject query is
    not fatal: the Message Aggregator answers the empty summary, which the
    label of the two references then replaces. *)
Theorem diff_failure_is_fatal (E : env) (a : args) (w w1 : world) (e : string) :
  prepare E a w = (Ret tt, w1) ->
  check_output E (git_diff (resolve_base E a) (head a)) = Failed e ->
  fatal_when_failing E a w (git_diff (resolve_base E a) (head a))
  /\ (exists w', run E a w = (1, w')
                 /\ stdout w' = (stdout w ++ [("Error running git diff: " ++ e)%string])%list
                 /\ fs w' = fs w1)
  /\ (forall b h e', check_output E (git_log b h) = Failed e' ->
        get_commit_message E b h = ""
        /\ message_or_label E b h = b ++ "_to_" ++ h).
Proof.
  intros Hp Hd. destruct (prepare_inv _ _ _ _ Hp) as (out & _ & _ & Hout & _).
  pose proof (main_diff_failed _ _ _ _ _ Hp Hd) as Hrun. repeat split.
  - intros e' He'. rewrite Hd in He'. injection He' as <-.
    eexists _, _. split; [exact Hrun|]. split; [discriminate|].
    unfold reports. cbn [stdout]. rewrite existsb_app. cbn [existsb].
    rewrite ends_with_app. now destruct (existsb _ _).
  - eexists. split; [exact Hrun|]. cbn [stdout fs]. now rewrite Hout.
  - unfold get_commit_message. fold (git_log b h). now rewrite H.
  - unfold message_or_label, get_commit_message. fold (git_log b h). now rewrite H.
Qed.

Lemma diff_failure_is_fatal_witness :
  prepare untagged no_options checkout = (Ret tt, prepared)
  /\ fatal_when_failing untagged no_options checkout
       (git_diff "HEAD~1" "HEAD")
  /\ fst (run untagged no_options checkout) = 1.
Proof.
  assert (Hp : prepare untagged no_options checkout = (Ret tt, prepared))
    by run_it.
  destruct (diff_failure_is_fatal untagged no_options checkout prepared
              _ Hp eq_refl) as (Hfatal & (w' & Hrun & _) & _).
  split; [exact Hp|]. split; [exact Hfatal|]. now rewrite Hrun.
Defined.

(** ** The empty change set *)

(** C5. When the change set comes out empty the run ends with status 0,
    prints that no changed files were found between the two references,
    and leaves every regular file of the disk as it was: no archive is
    created. *)
Theorem no_changes_no_archive (E : env) (a : args) (w w1 w2 : world) :
  prepare E a w = (Ret tt, w1) ->
  get_changed_files E (resolve_base E a) (head a) w1 = (Ret [], w2) ->
  exists w',
    run E a w = (0, w')
    /\ stdout w'
       = (stdout w ++ [("No changed files found between "
                         ++ resolve_base E a ++ " and " ++ head a)%string])%list
    /\ forall p c, fs w' !! p = Some (File c) <-> fs w !! p = Some (File c).
Proof.
  intros Hp Hc. destruct (prepare_inv _ _ _ _ Hp) as (out & _ & _ & Hout & _ & _ & Hfs).
  eexists. split; [exact (main_no_changes _ _ _ _ _ Hp Hc)|]. cbn [stdout fs].
  split; [now rewrite Hout|]. intros p c.
  destruct Hfs as [->|[Hnone ->]]; [reflexivity|].
  destruct (decide (resolve (cwd w1) (output a) = p)) as [<-|Hne].
  - rewrite lookup_insert_eq, Hnone. split; discriminate.
  - now rewrite lookup_insert_ne.
Qed.

Lemma no_changes_no_archive_witness :
  prepare nothing_changed no_options checkout = (Ret tt, prepared)
  /\ get_changed_files nothing_changed "HEAD~1" "HEAD" prepared = (Ret [], prepared)
  /\ exists w',
       run nothing_changed no_options checkout = (0, w')
       /\ stdout w' = ["No changed files found between HEAD~1 and HEAD"]
       /\ forall p c, fs w' !! p = Some (File c) <-> fs checkout !! p = Some (File c).
Proof.
  assert (Hp : prepare nothing_changed no_options checkout
               = (Ret tt, prepared)) by run_it.
  assert (Hc : get_changed_files nothing_changed
                 (resolve_base nothing_changed no_options)
                 (head no_options) prepared = (Ret [], prepared))
    by run_it.
  split; [exact Hp|]. split; [exact Hc|].
  exact (no_changes_no_archive _ _ _ _ _ Hp Hc).
Defined.

(** ** The output directory *)





(** ** The archive *)

(** A run that ends with status 0 on a change set that is not empty has
    written the archive, over the members read while it was open. *)
Lemma run_ok_archive (E : env) (a : args) (w w1 w2 w' : world) (files : list string) :
  prepare E a w = (Ret tt, w1) ->
  get_changed_files E (resolve_base E a) (head a) w1 = (Ret files, w2) ->
  files <> [] ->
  run E a w = (0, w') ->
  cwd w' = cwd w1
  /\ fs w' = <[resolve (cwd w1) (archive_path E a w1) :=
                 File (Zip (map (fun f => Member f (content_at (archive_opened E a w1) f))
                                files))]> (fs w1).
Proof.
  intros Hp Hc Hne Hrun.
  destruct (dir_or_not (lookup_path w1 (archive_path E a w1))) as [Hdir|Hdir].
  - destruct (main_archive_is_dir _ _ _ _ _ _ Hp Hc Hne Hdir) as (w'' & Hrun' & _).
    rewrite Hrun' in Hrun. discriminate.
  - rewrite (main_packages _ _ _ _ _ _ Hp Hc Hne Hdir) in Hrun.
    injection Hrun as <-. split; reflexivity.
Qed.




(** ** The name of the archive *)

Lemma children_nil_free (w : world) (d n : string) :
  children w d = [] -> n <> "" -> has_slash n = false ->
  fs w !! (dir_prefix (resolve (cwd w) d) ++ n) = None.
Proof.
  intros Hnil Hn Hs.
  destruct (fs w !! (dir_prefix (resolve (cwd w) d) ++ n)) as [x|] eqn:Hk; [|reflexivity].
  exfalso. assert (Hin : n ∈ children w d).
  { unfold children. apply list_elem_of_omap.
    exists (dir_prefix (resolve (cwd w) d) ++ n, x). split.
    - now apply elem_of_map_to_list.
    - cbn [fst]. unfold child_name.
      replace (Py.startswith _ _) with (Some n) by (symmetry; now apply startswith_Some).
      destruct n as [|c n]; [congruence|]. now rewrite Hs. }
  rewrite Hnil in Hin. now apply elem_of_nil in Hin.
Qed.

Lemma single_digit (n : N) :
  (n < 10)%N -> exists d, Py.str_of_N n = String d "" /\ Py.is_digit d = true.
Proof.
  intros Hn.
  pose proof (all_below_spec 10
                (fun k => match Py.str_of_N k with
                          | String d EmptyString => Py.is_digit d
                          | _ => false
                          end) n eq_refl Hn) as H.
  cbv beta in H. destruct (Py.str_of_N n) as [|d [|]]; try discriminate. eauto.
Qed.

(** The rendering of a finite version ends with a dot and one digit. *)
Lemma format_1f_one_digit (s : bool) (m : positive) (e : Z) :
  exists ip d,
    Float64.format_1f (S754_finite s m e) = Float64.sign s ++ ip ++ "." ++ String d ""
    /\ Py.is_digit d = true.
Proof.
  unfold Float64.format_1f.
  destruct (single_digit (Z.to_N (Float64.tenths m e mod 10))) as (d & -> & Hd).
  - pose proof (Z.mod_pos_bound (Float64.tenths m e) 10). lia.
  - eauto.
Qed.

(** C6. With an output directory that lists nothing, the commit subject
    [Fix bug in parser] and the local date 2024-03-15, the run allocates
    the version 0.1 and writes its archive, the change set, under the name
    [update_0.1_20240315_Fix_bug_in_parser.zip] in the output directory.
    The name is made of the version with one fractional digit, the date
    and the sanitized message. *)
Theorem scenario_A_names_archive
    (E : env) (a : args) (w w1 w2 : world) (files : list string) :
  now E = ides_of_march ->
  prepare E a w = (Ret tt, w1) ->
  children w1 (output a) = [] ->
  get_changed_files E (resolve_base E a) (head a) w1 = (Ret files, w2) ->
  files <> [] ->
  get_commit_message E (resolve_base E a) (head a) = "Fix bug in parser" ->
  next_version w1 (output a) = Float64.tenth
  /\ Float64.format_1f (next_version w1 (output a)) = "0.1"
  /\ archive_path E a w1
     = os_path_join (output a) "update_0.1_20240315_Fix_bug_in_parser.zip"
  /\ (exists w',
        run E a w = (0, w')
        /\ lookup_path w' (os_path_join (output a) "update_0.1_20240315_Fix_bug_in_parser.zip")
           = Some (File (Zip (map (fun f => Member f (content_at w1 f)) files))))
  /\ (forall v m,
        zip_name_of E v m
        = "update_" ++ Float64.format_1f v ++ "_" ++ "20240315" ++ "_"
            ++ sanitize_filename (Py.slice_to 20 m) ++ ".zip")
  /\ (forall s m e, exists ip d,
        Float64.format_1f (S754_finite s m e) = Float64.sign s ++ ip ++ "." ++ String d ""
        /\ Py.is_digit d = true).
Proof.
  intros Hnow Hp Hnil Hc Hne Hmsg.
  assert (Hv : next_version w1 (output a) = Float64.tenth)
    by (unfold next_version; now rewrite Hnil).
  assert (Hname : forall v m,
             zip_name_of E v m
             = "update_" ++ Float64.format_1f v ++ "_" ++ "20240315" ++ "_"
                 ++ sanitize_filename (Py.slice_to 20 m) ++ ".zip")
    by (intros v m; unfold zip_name_of; now rewrite Hnow).
  assert (Hpath : archive_path E a w1
                  = os_path_join (output a) "update_0.1_20240315_Fix_bug_in_parser.zip").
  { unfold archive_path, message_or_label. rewrite Hv, Hmsg, Hname. reflexivity. }
  destruct (prepare_inv _ _ _ _ Hp) as (out & _ & _ & _ & Ho & _).
  assert (Hfree : lookup_path w1 (archive_path E a w1) = None).
  { unfold lookup_path. rewrite Hpath, resolve_join by easy.
    now apply children_nil_free. }
  split; [exact Hv|]. split; [now rewrite Hv|]. split; [exact Hpath|].
  split; [|split; [exact Hname|intros; apply format_1f_one_digit]].
  assert (Hdir : lookup_path w1 (archive_path E a w1) <> Some Dir) by now rewrite Hfree.
  destruct (get_changed_files_inv _ _ _ _ _ _ Hc) as [_ Hfiles].
  eexists. split; [exact (main_packages _ _ _ _ _ _ Hp Hc Hne Hdir)|].
  rewrite <- Hpath. unfold lookup_path at 1. cbn [fs cwd].
  rewrite lookup_insert_eq. do 3 f_equal.
  apply map_ext_Forall. eapply Forall_impl; [exact Hfiles|].
  intros f Hf. cbv beta in *. f_equal.
  unfold content_at, archive_opened, set_node, lookup_path, is_file in *. cbn [fs cwd].
  rewrite lookup_insert_ne; [reflexivity|].
  intros Heq. unfold lookup_path in Hfree, Hf. rewrite <- Heq, Hfree in Hf. discriminate.
Qed.

Lemma scenario_A_names_archive_witness :
  now scenario_A = ides_of_march
  /\ children prepared "updates" = []
  /\ get_commit_message scenario_A "v1.0" "HEAD" = "Fix bug in parser"
  /\ exists w',
       run scenario_A no_options checkout = (0, w')
       /\ lookup_path w' "updates/update_0.1_20240315_Fix_bug_in_parser.zip"
          = Some (File (Zip [Member "src/a.py" (Raw "print(1)")])).
Proof.
  assert (Hp : prepare scenario_A no_options checkout = (Ret tt, prepared))
    by run_it.
  assert (Hc : get_changed_files scenario_A (resolve_base scenario_A no_options)
                 (head no_options) prepared = (Ret ["src/a.py"], prepared))
    by run_it.
  assert (Hnil : children prepared (output no_options) = []) by run_it.
  assert (Hmsg : get_commit_message scenario_A (resolve_base scenario_A no_options)
                   (head no_options) = "Fix bug in parser") by run_it.
  destruct (scenario_A_names_archive scenario_A no_options checkout prepared prepared
              ["src/a.py"] eq_refl Hp Hnil Hc ltac:(discriminate) Hmsg)
    as (_ & _ & _ & (w' & Hrun & Harch) & _).
  split; [reflexivity|]. split; [exact Hnil|]. split; [exact Hmsg|].
  exists w'. split; [exact Hrun|]. exact Harch.
Defined.

(** ** The message *)

Lemma replace_empty (old : ascii) (new s : string) :
  new <> "" -> Py.replace old new s = "" -> s = "".
Proof.
  intros Hnew. destruct s as [|c s]; [reflexivity|]. simpl.
  destruct (Ascii.eqb c old); [|discriminate].
  destruct new; [congruence|discriminate].
Qed.

(** The summary is empty exactly when the query fails or prints nothing
    but white space. *)
Lemma get_commit_message_empty (E : env) (b h : string) :
  get_commit_message E b h = ""
  <-> match check_output E (git_log b h) with
      | Output out => Py.strip out = ""
      | Failed _ => True
      end.
Proof.
  unfold get_commit_message. fold (git_log b h).
  destruct (check_output E (git_log b h)) as [out|e]; [|easy].
  split; [apply replace_empty; discriminate|now intros ->].
Qed.

(** C8. When the summary of the commit subjects is empty, the message
    is the label [<base>_to_<head>], and it is this label that is cut to
    twenty characters and sanitized into the name of the archive that the
    run writes. *)
Theorem label_when_summary_empty
    (E : env) (a : args) (w w1 w2 w' : world) (files : list string) :
  prepare E a w = (Ret tt, w1) ->
  get_changed_files E (resolve_base E a) (head a) w1 = (Ret files, w2) ->
  files <> [] ->
  get_commit_message E (resolve_base E a) (head a) = "" ->
  run E a w = (0, w') ->
  message_or_label E (resolve_base E a) (head a) = resolve_base E a ++ "_to_" ++ head a
  /\ exists members,
       lookup_path w'
         (os_path_join (output a)
            ("update_" ++ Float64.format_1f (next_version w1 (output a)) ++ "_"
               ++ strftime_Ymd (now E) ++ "_"
               ++ sanitize_filename
                    (Py.slice_to 20 (resolve_base E a ++ "_to_" ++ head a))
               ++ ".zip"))
       = Some (File (Zip members))
       /\ map (fun m => match m with Member n _ => n end) members = files.
Proof.
  intros Hp Hc Hne Hmsg Hrun.
  assert (Hlabel : message_or_label E (resolve_base E a) (head a)
                   = resolve_base E a ++ "_to_" ++ head a)
    by (unfold message_or_label; now rewrite Hmsg).
  split; [exact Hlabel|].
  destruct (run_ok_archive _ _ _ _ _ _ _ Hp Hc Hne Hrun) as [Hcwd Hfs].
  eexists. split.
  - unfold lookup_path. rewrite Hcwd, Hfs. unfold archive_path, zip_name_of.
    rewrite Hlabel. apply lookup_insert_eq.
  - rewrite map_map. apply map_id.
Qed.

Lemma label_when_summary_empty_witness :
  get_commit_message scenario_C "v1.0" "main" = ""
  /\ run scenario_C from_v1_0_to_main checkout = (0, after_C)
  /\ message_or_label scenario_C "v1.0" "main" = "v1.0_to_main"
  /\ lookup_path after_C "updates/update_0.1_20240315_v10_to_main.zip"
     = Some (File (Zip [Member "src/a.py" (Raw "print(1)")])).
Proof.
  pose (a := from_v1_0_to_main).
  assert (Hp : prepare scenario_C a checkout = (Ret tt, prepared))
    by run_it.
  assert (Hc : get_changed_files scenario_C (resolve_base scenario_C a) (head a) prepared
               = (Ret ["src/a.py"], prepared)) by run_it.
  assert (Hmsg : get_commit_message scenario_C (resolve_base scenario_C a) (head a) = "")
    by run_it.
  assert (Hrun : run scenario_C a checkout = (0, after_C)) by run_it.
  destruct (label_when_summary_empty _ _ _ _ _ _ _ Hp Hc ltac:(discriminate) Hmsg Hrun)
    as (Hlabel & members & Harch & Hnames).
  split; [exact Hmsg|]. split; [exact Hrun|]. split; [exact Hlabel|].
  vm_compute. reflexivity.
Defined.

(** * Further properties of the script *)

(** ** [sanitize_filename] on any text *)

Lemma replace_length (old new : ascii) (s : string) :
  String.length (Py.replace old (String new "") s) = String.length s.
Proof.
  induction s as [|c s IH]; [reflexivity|].
  cbn [Py.replace]. destruct (Ascii.eqb c old);
    [change (String new "" ++ ?x) with (String new x)|]; cbn [String.length];
    now rewrite IH.
Qed.

Lemma re_sub_length (s : string) :
  (String.length (re_sub_disallowed s) <= String.length s)%nat.
Proof.
  induction s as [|c s IH]; [reflexivity|].
  cbn [re_sub_disallowed]. destruct (allowed c); cbn [String.length]; lia.
Qed.

Lemma slice_to_length (n : nat) (s : string) :
  (String.length (Py.slice_to n s) <= n)%nat.
Proof.
  revert s; induction n as [|n IH]; intros [|c s]; cbn [Py.slice_to String.length];
    try lia. specialize (IH s). lia.
Qed.

(** X1. Whatever the text, what [sanitize_filename] returns holds only
    letters, digits, underscores and hyphens, is not longer than the text,
    and is returned unchanged when sanitized again.  The fragment that
    [create_update_zip] puts in the name is therefore at most twenty
    characters long. *)
Theorem sanitize_clean_and_stable (s : string) :
  all_allowed (sanitize_filename s) = true
  /\ sanitize_filename (sanitize_filename s) = sanitize_filename s
  /\ (String.length (sanitize_filename s) <= String.length s)%nat
  /\ (String.length (sanitize_filename (Py.slice_to 20 s)) <= 20)%nat.
Proof.
  assert (Hlen : forall t,
             (String.length (sanitize_filename t) <= String.length t)%nat).
  { intros t. unfold sanitize_filename.
    pose proof (replace_length " " "_" t) as Hr.
    pose proof (re_sub_length (Py.replace " " "_" t)). lia. }
  repeat split.
  - apply re_sub_all_allowed.
  - apply sanitize_fixpoint, re_sub_all_allowed.
  - apply Hlen.
  - specialize (Hlen (Py.slice_to 20 s)). pose proof (slice_to_length 20 s). lia.
Qed.

Lemma replace_app (old : ascii) (new a b : string) :
  Py.replace old new (a ++ b) = Py.replace old new a ++ Py.replace old new b.
Proof.
  induction a as [|c a IH]; [reflexivity|].
  change (String c a ++ b) with (String c (a ++ b)). cbn [Py.replace].
  rewrite IH. destruct (Ascii.eqb c old); [now rewrite string_app_assoc|reflexivity].
Qed.

Lemma re_sub_app (a b : string) :
  re_sub_disallowed (a ++ b) = re_sub_disallowed a ++ re_sub_disallowed b.
Proof.
  induction a as [|c a IH]; [reflexivity|].
  change (String c a ++ b) with (String c (a ++ b)). cbn [re_sub_disallowed].
  rewrite IH. now destruct (allowed c).
Qed.

(** X2. Sanitizing goes character by character: the result for a text in
    two parts is the two results put together, a space between the parts
    comes out as one underscore, and a character outside the allowed set
    between them leaves no trace. *)
Theorem sanitize_piecewise (a b : string) (c : ascii) :
  sanitize_filename (a ++ b) = sanitize_filename a ++ sanitize_filename b
  /\ sanitize_filename (a ++ " " ++ b) = sanitize_filename a ++ "_" ++ sanitize_filename b
  /\ (allowed c = false -> c <> " "%char ->
      sanitize_filename (a ++ String c b) = sanitize_filename a ++ sanitize_filename b).
Proof.
  assert (Happ : forall x y,
             sanitize_filename (x ++ y) = sanitize_filename x ++ sanitize_filename y)
    by (intros x y; unfold sanitize_filename; now rewrite replace_app, re_sub_app).
  repeat split.
  - apply Happ.
  - now rewrite !Happ.
  - intros Hc Hsp. rewrite Happ. f_equal.
    unfold sanitize_filename. cbn [Py.replace].
    destruct (Ascii.eqb_spec c " ") as [->|_]; [congruence|].
    cbn [re_sub_disallowed]. now rewrite Hc.
Qed.

Lemma sanitize_piecewise_witness :
  allowed "/" = false
  /\ sanitize_filename ("src" ++ String "/" "main fix")
     = sanitize_filename "src" ++ sanitize_filename "main fix".
Proof.
  split; [reflexivity|].
  exact (proj2 (proj2 (sanitize_piecewise "src" "main fix" "/")) eq_refl
               ltac:(discriminate)).
Defined.

Lemma slice_to_app (n : nat) (m x : string) :
  (n <= String.length m)%nat -> Py.slice_to n (m ++ x) = Py.slice_to n m.
Proof.
  revert m; induction n as [|n IH]; intros m Hn; [now destruct m|].
  destruct m as [|c m]; [cbn in Hn; lia|].
  change (String c m ++ x) with (String c (m ++ x)). cbn [Py.slice_to].
  rewrite IH; [reflexivity|cbn in Hn; lia].
Qed.

(** X3. Only the first twenty characters of the message reach the name of
    the archive: whatever follows them, the name is the same. *)
Theorem name_from_first_twenty (E : env) (v : spec_float) (m x : string) :
  (20 <= String.length m)%nat ->
  zip_name_of E v (m ++ x) = zip_name_of E v m.
Proof. intros H. unfold zip_name_of. now rewrite slice_to_app. Qed.

Lemma name_from_first_twenty_witness :
  (20 <= String.length "Refactor the parser ")%nat
  /\ zip_name_of scenario_A Float64.tenth ("Refactor the parser " ++ "of dates |Fix typo")
     = zip_name_of scenario_A Float64.tenth "Refactor the parser ".
Proof.
  split; [cbn; lia|].
  apply (name_from_first_twenty scenario_A Float64.tenth "Refactor the parser "
           "of dates |Fix typo"). cbn; lia.
Defined.

(** ** The summary of the commit subjects *)

Lemma occurs_app (c : ascii) (a b : string) :
  occurs c (a ++ b) = occurs c a || occurs c b.
Proof.
  induction a as [|d a IH]; [reflexivity|].
  change (String d a ++ b) with (String d (a ++ b)). cbn [occurs].
  now rewrite IH, orb_assoc.
Qed.

Lemma replace_no_old (old : ascii) (new s : string) :
  occurs old new = false -> occurs old (Py.replace old new s) = false.
Proof.
  intros Hnew. induction s as [|c s IH]; [reflexivity|].
  cbn [Py.replace]. destruct (Ascii.eqb c old) eqn:Hc.
  - now rewrite occurs_app, Hnew, IH.
  - cbn [occurs]. now rewrite Hc, IH.
Qed.

(** X4. The summary is one line: whatever git prints, no line feed is left
    in what [get_commit_message] returns. *)
Theorem summary_is_one_line (E : env) (b h : string) :
  occurs Py.LF (get_commit_message E b h) = false.
Proof.
  unfold get_commit_message. destruct (check_output E _); [|reflexivity].
  now apply replace_no_old.
Qed.

(** X5. The summary is empty in two cases only: the query for the commit
    subjects fails, or it prints nothing but white space.  In both the
    message of the run is the label of the two references, and in every
    other case it is the summary. *)
Theorem summary_empty_cases (E : env) (b h : string) :
  (get_commit_message E b h = ""
   <-> match check_output E (git_log b h) with
       | Output out => Py.strip out = ""
       | Failed _ => True
       end)
  /\ (get_commit_message E b h = "" ->
      message_or_label E b h = b ++ "_to_" ++ h)
  /\ (get_commit_message E b h <> "" ->
      message_or_label E b h = get_commit_message E b h).
Proof.
  split; [apply get_commit_message_empty|]. unfold message_or_label. split.
  - now intros ->.
  - intros Hne. now destruct (get_commit_message E b h).
Qed.

Lemma summary_empty_cases_witness :
  get_commit_message log_fails "v1.0" "HEAD" = ""
  /\ message_or_label log_fails "v1.0" "HEAD" = "v1.0_to_HEAD"
  /\ get_commit_message scenario_A "v1.0" "HEAD" <> ""
  /\ message_or_label scenario_A "v1.0" "HEAD" = "Fix bug in parser".
Proof.
  assert (H1 : get_commit_message log_fails "v1.0" "HEAD" = "") by reflexivity.
  assert (H2 : get_commit_message scenario_A "v1.0" "HEAD" <> "") by discriminate.
  split; [exact H1|].
  split; [exact (proj1 (proj2 (summary_empty_cases log_fails "v1.0" "HEAD")) H1)|].
  split; [exact H2|].
  exact (proj2 (proj2 (summary_empty_cases scenario_A "v1.0" "HEAD")) H2).
Defined.

Lemma lstrip_length (s : string) :
  (String.length (Py.lstrip s) <= String.length s)%nat.
Proof.
  induction s as [|c s IH]; [reflexivity|].
  cbn [Py.lstrip]. destruct (Py.is_space c); cbn [String.length]; lia.
Qed.

Lemma rstrip_length (s : string) :
  (String.length (Py.rstrip s) <= String.length s)%nat.
Proof.
  induction s as [|c s IH]; [reflexivity|].
  cbn [Py.rstrip]. destruct (Py.rstrip s); [destruct (Py.is_space c)|];
    cbn [String.length] in *; lia.
Qed.

Lemma lstrip_fixed_or_shorter (s : string) :
  Py.lstrip s = s \/ (String.length (Py.lstrip s) < String.length s)%nat.
Proof.
  destruct s as [|c s]; [now left|]. cbn [Py.lstrip].
  destruct (Py.is_space c); [right|now left].
  pose proof (lstrip_length s). cbn [String.length]. lia.
Qed.

(** A text that [strip] leaves alone has white space at neither end. *)
Lemma strip_fixed (s : string) :
  Py.strip s = s -> Py.lstrip s = s /\ Py.rstrip s = s.
Proof.
  unfold Py.strip. intros H.
  destruct (lstrip_fixed_or_shorter s) as [Hl|Hl].
  - rewrite Hl in H. now split.
  - pose proof (rstrip_length (Py.lstrip s)) as Hr. rewrite H in Hr. lia.
Qed.

Lemma lstrip_app (s t : string) :
  s <> "" -> Py.lstrip s = s -> Py.lstrip (s ++ t) = s ++ t.
Proof.
  intros Hs Hl. destruct s as [|c s]; [congruence|].
  change (String c s ++ t) with (String c (s ++ t)). cbn [Py.lstrip] in *.
  destruct (Py.is_space c); [|reflexivity].
  pose proof (lstrip_length s) as Hlen. rewrite Hl in Hlen. cbn in Hlen. lia.
Qed.

Lemma rstrip_app_blank (s t : string) :
  Py.rstrip t = "" -> Py.rstrip (s ++ t) = Py.rstrip s.
Proof.
  intros Ht. induction s as [|c s IH]; [exact Ht|].
  change (String c s ++ t) with (String c (s ++ t)). cbn [Py.rstrip].
  now rewrite IH.
Qed.

Lemma replace_absent (old : ascii) (new s : string) :
  occurs old s = false -> Py.replace old new s = s.
Proof.
  induction s as [|c s IH]; [reflexivity|]. cbn [occurs Py.replace].
  intros [Hc Hs]%orb_false_iff. now rewrite Hc, IH.
Qed.

Lemma replace_subject_lines (s : string) (rest : list string) :
  Forall (fun x => occurs Py.LF x = false) (s :: rest) ->
  Py.replace Py.LF " |" (String.concat (String Py.LF "") (s :: rest))
  = String.concat " |" (s :: rest).
Proof.
  revert s; induction rest as [|r rest IH]; intros s Hall.
  - apply replace_absent. now inversion Hall.
  - change (String.concat (String Py.LF "") (s :: r :: rest))
      with (s ++ String Py.LF (String.concat (String Py.LF "") (r :: rest))).
    change (String.concat " |" (s :: r :: rest))
      with (s ++ " |" ++ String.concat " |" (r :: rest)).
    inversion Hall as [|? ? Hs Hrest]; subst.
    rewrite replace_app, (replace_absent _ _ s Hs). f_equal.
    cbn [Py.replace]. rewrite Ascii.eqb_refl. f_equal. now apply IH.
Qed.

Lemma subject_lines_concat (s : string) (rest : list string) :
  subject_lines (s :: rest)
  = String.concat (String Py.LF "") (s :: rest) ++ String Py.LF "".
Proof.
  revert s; induction rest as [|r rest IH]; intros s; [reflexivity|].
  change (subject_lines (s :: r :: rest))
    with (s ++ String Py.LF (subject_lines (r :: rest))).
  rewrite IH.
  change (String.concat (String Py.LF "") (s :: r :: rest))
    with (s ++ String Py.LF (String.concat (String Py.LF "") (r :: rest))).
  rewrite string_app_assoc. reflexivity.
Qed.

(** X6. When git prints the subjects of the commits, one a line, and the
    block they make has white space at neither end, the summary is these
    subjects joined by [" |"], in the order git prints them. *)
Theorem summary_joins_subjects (E : env) (b h : string) (s : string) (rest : list string) :
  check_output E (git_log b h) = Output (subject_lines (s :: rest)) ->
  Forall (fun x => occurs Py.LF x = false) (s :: rest) ->
  s <> "" ->
  Py.strip (String.concat (String Py.LF "") (s :: rest))
  = String.concat (String Py.LF "") (s :: rest) ->
  get_commit_message E b h = String.concat " |" (s :: rest).
Proof.
  intros Hout Hall Hs Hfix. unfold get_commit_message. fold (git_log b h).
  rewrite Hout, subject_lines_concat.
  set (J := String.concat (String Py.LF "") (s :: rest)) in *.
  destruct (strip_fixed J Hfix) as [Hl Hr].
  assert (HJ : J <> "").
  { unfold J. destruct rest; [exact Hs|].
    change (String.concat (String Py.LF "") (s :: s0 :: rest))
      with (s ++ String Py.LF (String.concat (String Py.LF "") (s0 :: rest))).
    destruct s; [congruence|discriminate]. }
  unfold Py.strip. rewrite (lstrip_app J _ HJ Hl).
  rewrite rstrip_app_blank by reflexivity. rewrite Hr.
  now apply replace_subject_lines.
Qed.

Lemma summary_joins_subjects_witness :
  get_commit_message
    {| check_output := fun _ => Output (subject_lines ["Fix bug in parser"; "Add tests"; "Bump"]);
       now := ides_of_march; archive_size := fun _ => 0 |} "v1.0" "HEAD"
  = "Fix bug in parser |Add tests |Bump".
Proof.
  apply (summary_joins_subjects _ "v1.0" "HEAD" "Fix bug in parser" ["Add tests"; "Bump"]).
  - reflexivity.
  - repeat constructor.
  - discriminate.
  - reflexivity.
Defined.

(** ** Runs that end early *)

(** X7. Outside a git repository the run ends with status 1 after the
    one line [Error: Not a Git repository]: the disk and the working
    directory are as before, and the output directory is not made. *)
Theorem not_a_repository (E : env) (a : args) (w : world) (e : string) :
  check_output E ["git"; "rev-parse"; "--show-toplevel"] = Failed e ->
  run E a w
  = (1, {| fs := fs w; cwd := cwd w;
           stdout := stdout w ++ ["Error: Not a Git repository"] |}).
Proof.
  intros H. unfold run, main, bind, get_git_root. now rewrite H.
Qed.

Lemma not_a_repository_witness :
  check_output no_repository ["git"; "rev-parse"; "--show-toplevel"] = Failed status_128
  /\ run no_repository no_options checkout
     = (1, {| fs := fs checkout; cwd := cwd checkout;
              stdout := ["Error: Not a Git repository"] |}).
Proof.
  split; [reflexivity|].
  exact (not_a_repository no_repository no_options checkout status_128 eq_refl).
Defined.

Lemma main_unprepared (E : env) (a : args) (w w1 : world) (e : exn) :
  prepare E a w = (Raise e, w1) -> main E a w = (Raise e, w1).
Proof.
  unfold prepare, main, bind.
  destruct (get_git_root E w) as [[root|e0] w0]; [|now intros [= <- <-]].
  destruct (os_chdir root w0) as [[[]|e0] w0']; [|now intros [= <- <-]].
  destruct (os_makedirs (output a) w0') as [[[]|e0] w1']; [discriminate|].
  now intros [= <- <-].
Qed.

(** X8. When the output path is empty or names a regular file,
    [os.makedirs] raises and nothing catches it: the run ends with status
    1, has printed nothing and has changed nothing on disk. *)
Theorem output_cannot_be_made (E : env) (a : args) (w : world) (out : string) :
  check_output E ["git"; "rev-parse"; "--show-toplevel"] = Output out ->
  output a = "" \/ is_file (entered (Py.strip out) w) (output a) = true ->
  run E a w = (1, entered (Py.strip out) w).
Proof.
  intros Hroot Hbad.
  assert (Hp : exists e, prepare E a w = (Raise e, entered (Py.strip out) w)
                         /\ exit_status (@Raise unit e) = 1).
  { unfold prepare, bind, get_git_root. rewrite Hroot.
    unfold ret, os_chdir. fold (entered (Py.strip out) w). unfold os_makedirs.
    destruct Hbad as [->|Hf]; [eauto|].
    unfold is_file in Hf. destruct (output a) as [|c o]; [eauto|].
    destruct (lookup_path _ _) as [[c'|]|]; try discriminate. eauto. }
  destruct Hp as (e & Hp & He). unfold run.
  now rewrite (main_unprepared _ _ _ _ _ Hp), He.
Qed.

Lemma output_cannot_be_made_witness :
  is_file (entered "/repo" output_in_the_way) (output no_options) = true
  /\ run scenario_A no_options output_in_the_way = (1, output_in_the_way).
Proof.
  split; [reflexivity|].
  exact (output_cannot_be_made scenario_A no_options output_in_the_way (line "/repo")
           eq_refl (or_intror eq_refl)).
Defined.

(** ** Every run *)







(** ** The change set *)

(** X11. When the diff query answers, the change set is made of the paths
    it prints that are regular files, in the order it prints them: a path
    that is a directory or is not on disk is left out, and a regular file
    never is.  Extracting it changes nothing and prints nothing. *)
Theorem change_set_is_the_regular_files
    (E : env) (b h out : string) (w : world) :
  check_output E (git_diff b h) = Output out ->
  exists files,
    get_changed_files E b h w = (Ret files, w)
    /\ files = List.filter (is_file w) (Py.splitlines out)
    /\ (forall f, In f files <-> In f (Py.splitlines out) /\ is_file w f = true)
    /\ (forall f, lookup_path w f = Some Dir \/ lookup_path w f = None -> ~ In f files).
Proof.
  intros Hd. eexists. split; [exact (get_changed_files_output _ _ _ _ w Hd)|].
  split; [reflexivity|]. split.
  - intros f. apply filter_In.
  - intros f Hf [_ Hfile]%filter_In. unfold is_file in Hfile.
    destruct Hf as [Hf|Hf]; rewrite Hf in Hfile; discriminate.
Qed.

Lemma change_set_is_the_regular_files_witness :
  check_output scenario_A (git_diff "v1.0" "HEAD")
  = Output (line "src/a.py" ++ line "gone.txt")
  /\ get_changed_files scenario_A "v1.0" "HEAD" prepared = (Ret ["src/a.py"], prepared).
Proof.
  split; [reflexivity|].
  destruct (change_set_is_the_regular_files scenario_A "v1.0" "HEAD" _ prepared eq_refl)
    as (files & Hc & -> & _).
  exact Hc.
Defined.

(** ** The names that count as artifacts *)

(** X12. The pattern of [get_next_version] matches a name exactly when the
    name is [update_], digits, a dot, digits, and then anything that does
    not go on with a digit; it captures the two runs of digits with their
    dot.  So [update_1.3.4] counts as 1.3, and [update_12] and
    [Update_1.3] do not count. *)
Theorem pattern_matches_artifact_names (f g : string) :
  (pattern_match f = Some g
   <-> exists ip fp rest, artifact_name f ip fp rest /\ g = ip ++ "." ++ fp)
  /\ pattern_match "update_1.3.4" = Some "1.3"
  /\ pattern_match "update_12" = None
  /\ pattern_match "Update_1.3" = None.
Proof.
  split; [|repeat split]. split.
  - apply pattern_match_inv.
  - intros (ip & fp & rest & Ha & ->). exact (pattern_match_artifact _ _ _ rest Ha).
Qed.

Lemma string_of_uint_digits (d : Decimal.uint) :
  all_digits (NilEmpty.string_of_uint d) = true.
Proof. induction d; cbn [NilEmpty.string_of_uint all_digits]; try reflexivity; exact IHd. Qed.

Lemma str_of_N_digits (n : N) :
  all_digits (Py.str_of_N n) = true /\ Py.str_of_N n <> "".
Proof.
  unfold Py.str_of_N, NilZero.string_of_uint.
  destruct (N.to_uint n) as [|u|u|u|u|u|u|u|u|u|u];
    (split; [first [reflexivity|apply string_of_uint_digits]|discriminate]).
Qed.

Lemma format_1f_shape (v : spec_float) :
  finite_nonneg v = true ->
  exists ip fp,
    Float64.format_1f v = ip ++ "." ++ fp
    /\ ip <> "" /\ fp <> "" /\ all_digits ip = true /\ all_digits fp = true.
Proof.
  destruct v as [[]|[]| |[] m e]; try discriminate; intros _.
  - exists "0", "0". repeat split; discriminate.
  - unfold Float64.format_1f.
    destruct (str_of_N_digits (Z.to_N (Float64.tenths m e / 10))) as [Di Hi].
    destruct (str_of_N_digits (Z.to_N (Float64.tenths m e mod 10))) as [Df Hf].
    eexists _, _. split; [reflexivity|]. auto.
Qed.

Lemma own_name_artifact (E : env) (v : spec_float) (m : string) :
  finite_nonneg v = true ->
  exists ip fp rest,
    artifact_name (zip_name_of E v m) ip fp rest
    /\ Float64.format_1f v = ip ++ "." ++ fp.
Proof.
  intros Hv. destruct (format_1f_shape v Hv) as (ip & fp & Hfmt & Hi & Hf & Di & Df).
  exists ip, fp,
    ("_" ++ strftime_Ymd (now E) ++ "_" ++ sanitize_filename (Py.slice_to 20 m) ++ ".zip").
  split; [|exact Hfmt]. unfold artifact_name, zip_name_of. rewrite Hfmt.
  split; [|now repeat split].
  rewrite !string_app_assoc. reflexivity.
Qed.

(** X13. The script recognises its own archives: the name it builds for a
    version that is finite and not negative matches the pattern of
    [get_next_version], which captures the version as it is rendered in
    the name.  The name built for an infinite version is not matched. *)
Theorem own_names_are_recognised (E : env) (v : spec_float) (m : string) :
  (finite_nonneg v = true ->
   pattern_match (zip_name_of E v m) = Some (Float64.format_1f v))
  /\ pattern_match (zip_name_of E (S754_infinity false) m) = None.
Proof.
  split; [|reflexivity]. intros Hv.
  destruct (own_name_artifact E v m Hv) as (ip & fp & rest & Ha & ->).
  exact (pattern_match_artifact _ _ _ rest Ha).
Qed.

Lemma own_names_are_recognised_witness :
  finite_nonneg Float64.tenth = true
  /\ pattern_match (zip_name_of scenario_A Float64.tenth "Fix bug in parser") = Some "0.1".
Proof.
  split; [reflexivity|].
  exact (proj1 (own_names_are_recognised scenario_A Float64.tenth "Fix bug in parser")
               eq_refl).
Defined.

(** X14. After an artifact whose version has one fractional digit and is
    at most 999.9, the next version is rendered one tenth higher: 0.1
    after 0.0, 1.0 after 0.9, 1000.0 after 999.9. *)
Theorem one_tenth_more (k : N) :
  (k < 10000)%N ->
  exists v,
    Float64.of_str (version_text k) = Some v
    /\ next_after [v] = Float64.add v Float64.tenth
    /\ Float64.format_1f (next_after [v]) = version_text (k + 1).
Proof.
  intros Hk. pose proof (tenths_advance k Hk) as H. unfold advances in H.
  destruct (Float64.of_str (version_text k)) as [v|]; [|discriminate].
  exists v. repeat split. now apply String.eqb_eq.
Qed.

Lemma one_tenth_more_witness :
  (9 < 10000)%N
  /\ exists v, Float64.of_str "0.9" = Some v
               /\ Float64.format_1f (next_after [v]) = "1.0".
Proof.
  split; [lia|].
  destruct (one_tenth_more 9 ltac:(lia)) as (v & Hv & _ & Hf).
  exists v. split; [exact Hv|exact Hf].
Defined.

(** ** The floats of the versions *)

Lemma shr_1_nonneg (mrs : shr_record) : 0 <= shr_m mrs -> 0 <= shr_m (shr_1 mrs).
Proof.
  destruct mrs as [m r s]. cbn [shr_m]. intros Hm.
  destruct m as [|[p|p|]|p]; cbn; lia.
Qed.

Lemma iter_shr_1_nonneg (p : positive) (mrs : shr_record) :
  0 <= shr_m mrs -> 0 <= shr_m (SpecFloat.iter_pos shr_1 p mrs).
Proof.
  revert mrs; induction p as [p IH|p IH|]; intros mrs Hm; cbn [SpecFloat.iter_pos].
  - apply IH, IH, shr_1_nonneg, Hm.
  - apply IH, IH, Hm.
  - apply shr_1_nonneg, Hm.
Qed.

Lemma shr_fexp_nonneg (m e : Z) (l : location) :
  0 <= m -> 0 <= shr_m (fst (shr_fexp Float64.prec Float64.emax m e l)).
Proof.
  intros Hm. unfold shr_fexp, shr.
  assert (H0 : 0 <= shr_m (shr_record_of_loc m l)) by (destruct l as [|[]]; exact Hm).
  destruct (_ - e) as [|p|p]; cbn [fst]; try exact H0.
  now apply iter_shr_1_nonneg.
Qed.

Lemma round_nearest_even_nonneg (m : Z) (l : location) :
  0 <= m -> 0 <= round_nearest_even m l.
Proof.
  intros Hm. destruct l as [|[]]; cbn [round_nearest_even]; try lia.
  destruct (Z.even m); lia.
Qed.

(** Rounding a magnitude that is not negative, with the sign plus, gives
    zero, a positive float or plus infinity. *)
Lemma binary_round_aux_nonneg (m e : Z) (l : location) :
  0 <= m -> nonneg (binary_round_aux Float64.prec Float64.emax false m e l) = true.
Proof.
  intros Hm. unfold binary_round_aux.
  pose proof (shr_fexp_nonneg m e l Hm) as H1.
  destruct (shr_fexp Float64.prec Float64.emax m e l) as [mrs' e'].
  cbn [fst] in H1.
  pose proof (shr_fexp_nonneg _ e' loc_Exact
                (round_nearest_even_nonneg _ (loc_of_shr_record mrs') H1)) as H2.
  destruct (shr_fexp _ _ _ e' loc_Exact) as [mrs'' e'']. cbn [fst] in H2.
  destruct (shr_m mrs'') as [|p|p]; [reflexivity| |lia].
  now destruct (_ <=? _).
Qed.

Lemma of_ratio_nonneg (n d : positive) : nonneg (Float64.of_ratio n d) = true.
Proof.
  unfold Float64.of_ratio, Float64.div, SFdiv, SFdiv_core_binary. cbn [xorb].
  set (m' := match _ - _ with Z.pos _ => _ | 0 => _ | Z.neg _ => _ end).
  assert (Hm' : 0 <= m').
  { unfold m'. destruct (_ - _); try lia. apply Z.shiftl_nonneg. lia. }
  pose proof (Z.div_pos m' (Z.pos d) Hm' ltac:(lia)) as Hq.
  unfold Z.div in Hq. destruct (Z.div_eucl m' (Z.pos d)) as [q r]. cbn [fst] in Hq.
  now apply binary_round_aux_nonneg.
Qed.

Lemma of_str_nonneg (s : string) (v : spec_float) :
  Float64.of_str s = Some v -> nonneg v = true.
Proof.
  unfold Float64.of_str.
  destruct (Float64.split_dot s) as [[[|a ip] [|b fp]]|]; try discriminate.
  destruct (Float64.digits_value _ _) as [[|n|n]|]; try discriminate;
    intros [= <-]; [reflexivity|apply of_ratio_nonneg|reflexivity].
Qed.

Lemma versions_in_nonneg (names : list string) (x : spec_float) :
  In x (versions_in names) -> nonneg x = true.
Proof.
  intros (f & _ & Hx)%in_versions_in. unfold version_of_name in Hx.
  destruct (pattern_match f); [|discriminate]. now apply of_str_nonneg in Hx.
Qed.

Lemma add_tenth_nonneg (x : spec_float) :
  nonneg x = true -> nonneg (Float64.add x Float64.tenth) = true.
Proof.
  destruct x as [[]|[]| |[] m e]; try discriminate; intros _; try reflexivity.
  unfold Float64.add, SFadd. change Float64.tenth
    with (S754_finite false 7205759403792794 (-56)). cbv beta iota.
  unfold binary_normalize. cbn [cond_Zopp].
  destruct (Z.pos _ + Z.pos _) as [|p|p] eqn:Hs; [reflexivity| |lia].
  unfold binary_round. destruct (shl_align p _ _) as [mz ez].
  now apply binary_round_aux_nonneg.
Qed.

(** On the floats that are not negative, [<] is a total order: two of
    them of which neither is below the other are the same float. *)
Lemma ltb_total_nonneg (x y : spec_float) :
  nonneg x = true -> nonneg y = true ->
  Float64.ltb x y = false -> Float64.ltb y x = false -> x = y.
Proof.
  unfold Float64.ltb, SFltb, SFcompare.
  destruct x as [[]|[]| |[] mx ex], y as [[]|[]| |[] my ey];
    try discriminate; try reflexivity; intros _ _.
  fold (Pos.compare mx my). fold (Pos.compare my mx).
  destruct (Z.compare_spec ex ey); try discriminate;
    destruct (Z.compare_spec ey ex); try discriminate; try lia. subst.
  destruct (Pos.compare_spec mx my); try discriminate;
    destruct (Pos.compare_spec my mx); try discriminate; try lia.
  now subst.
Qed.

Lemma next_after_nonneg (names : list string) :
  nonneg (next_after (versions_in names)) = true.
Proof.
  unfold next_after. destruct (versions_in names) as [|v vs] eqn:Hvs; [reflexivity|].
  destruct (max_spec v vs) as [Hin _]. rewrite <- Hvs in Hin.
  now apply add_tenth_nonneg, versions_in_nonneg with names.
Qed.

(** X15. The version that [get_next_version] computes is always a number
    that is not negative, whatever the names in the directory: it is never
    rendered as [nan] and never with a minus sign. *)
Theorem version_is_never_negative (names : list string) :
  nonneg (next_after (versions_in names)) = true
  /\ Float64.format_1f (next_after (versions_in names)) <> "nan"
  /\ Py.startswith "-" (Float64.format_1f (next_after (versions_in names))) = None.
Proof.
  pose proof (next_after_nonneg names) as H. split; [exact H|].
  destruct (next_after (versions_in names)) as [[]|[]| |[] m e]; try discriminate;
    try (split; [discriminate|reflexivity]).
  unfold Float64.format_1f. cbn [Float64.sign].
  destruct (str_of_N_digits (Z.to_N (Float64.tenths m e / 10))) as [Hd Hne].
  destruct (Py.str_of_N _) as [|c s]; [congruence|].
  cbn [all_digits] in Hd. apply andb_true_iff in Hd as [Hc _].
  change ("" ++ String c s ++ ?x) with (String c (s ++ x)). split.
  - intros Heq. injection Heq as -> _. discriminate Hc.
  - cbn [Py.startswith].
    destruct (Ascii.eqb_spec "-" c) as [<-|]; [discriminate Hc|reflexivity].
Qed.

Lemma max_permutation (v v' : spec_float) (vs vs' : list spec_float) :
  Permutation (v :: vs) (v' :: vs') ->
  (forall x, In x (v :: vs) -> nonneg x = true) ->
  Float64.max v vs = Float64.max v' vs'.
Proof.
  intros Hp Hnn.
  destruct (max_spec v vs) as [Hin Hmax]. destruct (max_spec v' vs') as [Hin' Hmax'].
  assert (Hin2 : In (Float64.max v' vs') (v :: vs))
    by (eapply Permutation_in; [symmetry; exact Hp|exact Hin']).
  assert (Hin3 : In (Float64.max v vs) (v' :: vs'))
    by (eapply Permutation_in; [exact Hp|exact Hin]).
  apply ltb_total_nonneg; auto.
Qed.

(** X16. The next version does not depend on the order in which
    [os.listdir] gives the names: two listings of the same names give the
    same float. *)
Theorem version_whatever_the_order (names names' : list string) :
  Permutation names names' ->
  next_after (versions_in names) = next_after (versions_in names').
Proof.
  intros Hp.
  assert (Hv : Permutation (versions_in names) (versions_in names'))
    by (unfold versions_in; now rewrite Hp).
  unfold next_after.
  destruct (versions_in names) as [|v vs] eqn:E1, (versions_in names') as [|v' vs'] eqn:E2.
  - reflexivity.
  - now apply Permutation_nil_cons in Hv.
  - symmetry in Hv. now apply Permutation_nil_cons in Hv.
  - f_equal. apply max_permutation; [exact Hv|].
    intros x Hx. apply versions_in_nonneg with names. now rewrite E1.
Qed.

Lemma version_whatever_the_order_witness :
  Permutation [artifact_1_3; "notes.txt"; artifact_0_9]
              [artifact_0_9; artifact_1_3; "notes.txt"]
  /\ next_after (versions_in [artifact_1_3; "notes.txt"; artifact_0_9])
     = next_after (versions_in [artifact_0_9; artifact_1_3; "notes.txt"]).
Proof.
  assert (Hp : Permutation [artifact_1_3; "notes.txt"; artifact_0_9]
                           [artifact_0_9; artifact_1_3; "notes.txt"]).
  { apply Permutation_trans with [artifact_1_3; artifact_0_9; "notes.txt"].
    - apply perm_skip, perm_swap.
    - apply perm_swap. }
  split; [exact Hp|]. exact (version_whatever_the_order _ _ Hp).
Defined.

(** ** The archive among the earlier ones *)

Lemma has_slash_occurs (s : string) : has_slash s = occurs "/" s.
Proof.
  unfold has_slash. induction s as [|c s IH]; [reflexivity|].
  cbn [list_ascii_of_string existsb occurs]. now rewrite IH, Ascii.eqb_sym.
Qed.

Lemma digits_no_slash (s : string) : all_digits s = true -> occurs "/" s = false.
Proof.
  induction s as [|c s IH]; [reflexivity|]. cbn [all_digits occurs].
  intros [Hc Hs]%andb_true_iff. rewrite (IH Hs).
  destruct (Ascii.eqb_spec c "/") as [->|]; [discriminate Hc|reflexivity].
Qed.

Lemma allowed_no_slash (s : string) : all_allowed s = true -> occurs "/" s = false.
Proof.
  induction s as [|c s IH]; [reflexivity|]. cbn [all_allowed occurs].
  intros [Hc Hs]%andb_true_iff. rewrite (IH Hs).
  destruct (Ascii.eqb_spec c "/") as [->|]; [discriminate Hc|reflexivity].
Qed.

Lemma zfill_no_slash (n : nat) (s : string) :
  occurs "/" (Py.zfill n s) = occurs "/" s.
Proof.
  unfold Py.zfill. rewrite occurs_app.
  replace (occurs "/" (String.concat "" (repeat "0" (n - String.length s)))) with false;
    [reflexivity|].
  induction (n - String.length s)%nat as [|k IH]; [reflexivity|].
  cbn [repeat String.concat]. destruct (repeat "0" k) eqn:Hr; [reflexivity|].
  rewrite !occurs_app, <- IH. reflexivity.
Qed.

Lemma format_1f_no_slash (v : spec_float) : occurs "/" (Float64.format_1f v) = false.
Proof.
  destruct v as [[]|[]| |s m e]; try reflexivity.
  unfold Float64.format_1f. rewrite !occurs_app.
  rewrite !(digits_no_slash _ (proj1 (str_of_N_digits _))). now destruct s.
Qed.

(** The name of an archive has no directory part. *)
Lemma zip_name_no_slash (E : env) (v : spec_float) (m : string) :
  has_slash (zip_name_of E v m) = false.
Proof.
  rewrite has_slash_occurs. unfold zip_name_of, strftime_Ymd, sanitize_filename.
  rewrite !occurs_app, format_1f_no_slash, !zfill_no_slash.
  rewrite !(digits_no_slash _ (proj1 (str_of_N_digits _))).
  rewrite (allowed_no_slash _ (re_sub_all_allowed _)). reflexivity.
Qed.

Lemma child_listed (w : world) (d n : string) (x : node) :
  fs w !! (dir_prefix (resolve (cwd w) d) ++ n) = Some x ->
  n <> "" -> has_slash n = false -> In n (children w d).
Proof.
  intros Hk Hn Hs. apply list_elem_of_In. unfold children. apply list_elem_of_omap.
  exists (dir_prefix (resolve (cwd w) d) ++ n, x). split.
  - now apply elem_of_map_to_list.
  - cbn [fst]. unfold child_name.
    replace (Py.startswith _ _) with (Some n) by (symmetry; now apply startswith_Some).
    destruct n as [|c n]; [congruence|]. now rewrite Hs.
Qed.

Lemma archive_path_resolved (E : env) (a : args) (w : world) (C : string) :
  output a <> "" ->
  resolve C (archive_path E a w) = dir_prefix (resolve C (output a)) ++ archive_name E a w.
Proof. intros Ho. unfold archive_path. now apply resolve_join. Qed.

(** X17. The archive that a run has written is listed in the output
    directory under its name, and when its version is finite the name
    carries that version: the next run counts it. *)
Theorem written_archive_is_counted
    (E : env) (a : args) (w w1 w2 w' : world) (files : list string) :
  prepare E a w = (Ret tt, w1) ->
  get_changed_files E (resolve_base E a) (head a) w1 = (Ret files, w2) ->
  files <> [] ->
  run E a w = (0, w') ->
  In (archive_name E a w1) (children w' (output a))
  /\ (finite_nonneg (next_version w1 (output a)) = true ->
      exists v,
        Float64.of_str (Float64.format_1f (next_version w1 (output a))) = Some v
        /\ In v (versions_in (children w' (output a)))).
Proof.
  intros Hp Hc Hne Hrun.
  destruct (run_ok_archive _ _ _ _ _ _ _ Hp Hc Hne Hrun) as [Hcwd Hfs].
  destruct (prepare_inv _ _ _ _ Hp) as (out & _ & _ & _ & Ho & _).
  assert (Hin : In (archive_name E a w1) (children w' (output a))).
  { eapply child_listed.
    - rewrite Hcwd, Hfs, <- (archive_path_resolved E a w1 _ Ho). apply lookup_insert_eq.
    - discriminate.
    - apply zip_name_no_slash. }
  split; [exact Hin|]. intros Hv.
  destruct (own_name_artifact E (next_version w1 (output a))
              (message_or_label E (resolve_base E a) (head a)) Hv)
    as (ip & fp & rest & Ha & Hfmt).
  destruct (artifact_counted _ _ _ _ Ha) as [Hof [v Hvn]].
  exists v. rewrite Hfmt, <- Hof. split; [exact Hvn|].
  apply in_versions_in. exists (archive_name E a w1). split; assumption.
Qed.

Lemma written_archive_is_counted_witness :
  run scenario_A no_options checkout = (0, after_A)
  /\ In "update_0.1_20240315_Fix_bug_in_parser.zip" (children after_A "updates")
  /\ next_after (versions_in (children after_A "updates"))
     = S754_finite false 7205759403792794 (-55).
Proof.
  assert (Hp : prepare scenario_A no_options checkout = (Ret tt, prepared)) by run_it.
  assert (Hc : get_changed_files scenario_A (resolve_base scenario_A no_options)
                 (head no_options) prepared = (Ret ["src/a.py"], prepared)) by run_it.
  assert (Hrun : run scenario_A no_options checkout = (0, after_A)) by run_it.
  destruct (written_archive_is_counted _ _ _ _ _ _ _ Hp Hc ltac:(discriminate) Hrun)
    as [Hin _].
  split; [exact Hrun|]. split; [exact Hin|]. run_it.
Defined.

Lemma rises_below (k : N) : (k < 10000)%N -> rises k = true.
Proof.
  intros Hk. apply (all_below_spec (N.to_nat 10000)); [run_it|].
  now rewrite N2Nat.id.
Qed.

Lemma version_text_artifact (E : env) (v : spec_float) (m : string) (k : N) :
  Float64.format_1f v = version_text k ->
  pattern_match (zip_name_of E v m) = Some (version_text k).
Proof.
  intros Hfmt.
  destruct (str_of_N_digits (k / 10)) as [Di Hi].
  destruct (str_of_N_digits (k mod 10)) as [Df Hf].
  apply (pattern_match_artifact _ _ _
           ("_" ++ strftime_Ymd (now E) ++ "_"
              ++ sanitize_filename (Py.slice_to 20 m) ++ ".zip")).
  unfold artifact_name, zip_name_of. rewrite Hfmt. unfold version_text.
  split; [|now repeat split].
  rewrite !string_app_assoc. reflexivity.
Qed.

(** X18. A run does not write over an earlier artifact of the tool: when
    every name in the output directory that the pattern matches carries a
    version of one fractional digit below 1000, no file and no directory
    is at the path of the archive to come. *)
Theorem earlier_artifacts_are_kept (E : env) (a : args) (w w1 : world) :
  prepare E a w = (Ret tt, w1) ->
  (forall f g, In f (children w1 (output a)) -> pattern_match f = Some g ->
               exists k, (k < 10000)%N /\ g = version_text k) ->
  lookup_path w1 (archive_path E a w1) = None.
Proof.
  intros Hp Hold.
  destruct (prepare_inv _ _ _ _ Hp) as (out & _ & _ & _ & Ho & _).
  destruct (lookup_path w1 (archive_path E a w1)) as [x|] eqn:Hx; [exfalso|reflexivity].
  unfold lookup_path in Hx. rewrite (archive_path_resolved E a w1 _ Ho) in Hx.
  assert (Hin : In (archive_name E a w1) (children w1 (output a)))
    by (eapply child_listed; [exact Hx|discriminate|apply zip_name_no_slash]).
  assert (Hcount : forall k1,
             Float64.format_1f (next_version w1 (output a)) = version_text k1 ->
             exists b, Float64.of_str (version_text k1) = Some b
                       /\ In b (versions_in (children w1 (output a)))).
  { intros k1 Hfmt.
    pose proof (version_text_artifact E _
                  (message_or_label E (resolve_base E a) (head a)) k1 Hfmt) as Hm.
    fold (archive_name E a w1) in Hm.
    destruct (version_of_name_matched _ _ Hm) as [b Hb].
    exists b. split; [exact Hb|]. apply in_versions_in.
    exists (archive_name E a w1). split; [exact Hin|].
    unfold version_of_name. now rewrite Hm. }
  unfold next_version, next_after in Hcount.
  destruct (versions_in (children w1 (output a))) as [|v vs] eqn:Hvs.
  - destruct (Hcount 1%N eq_refl) as (b & _ & []).
  - destruct (max_spec v vs) as [Hmax_in Hmax]. rewrite <- Hvs in Hmax_in.
    apply in_versions_in in Hmax_in as (f & Hf & Hfm).
    unfold version_of_name in Hfm.
    destruct (pattern_match f) as [g|] eqn:Hg; [|discriminate].
    destruct (Hold f g Hf Hg) as (k & Hk & ->).
    pose proof (tenths_advance k Hk) as Hadv. unfold advances in Hadv.
    rewrite Hfm in Hadv. apply String.eqb_eq in Hadv.
    destruct (Hcount (k + 1)%N Hadv) as (b & Hb & Hbin).
    pose proof (rises_below k Hk) as Hr. unfold rises in Hr. rewrite Hfm, Hb in Hr.
    rewrite (Hmax b Hbin) in Hr. discriminate.
Qed.

Lemma earlier_artifacts_are_kept_witness :
  prepare scenario_A no_options world_B = (Ret tt, world_B)
  /\ archive_name scenario_A no_options world_B
     = "update_1.4_20240315_Fix_bug_in_parser.zip"
  /\ lookup_path world_B (archive_path scenario_A no_options world_B) = None.
Proof.
  assert (Hp : prepare scenario_A no_options world_B = (Ret tt, world_B)) by run_it.
  split; [exact Hp|]. split; [run_it|].
  apply (earlier_artifacts_are_kept scenario_A no_options world_B world_B Hp).
  intros f g Hf Hg.
  assert (Hl : children world_B (output no_options)
               = [artifact_1_3; artifact_0_9; "notes.txt"]) by run_it.
  rewrite Hl in Hf. destruct Hf as [<-|[<-|[<-|[]]]].
  - injection Hg as <-. exists 13%N. split; [lia|reflexivity].
  - injection Hg as <-. exists 9%N. split; [lia|reflexivity].
  - discriminate Hg.
Defined.

(** ** [create_update_zip] when a file has gone *)




(** ** A change set that is not empty *)



(** ** The directory the script is started in *)

(** X21. Inside a project the run does not depend on the directory it is
    started in: git names the project root by an absolute path, the
    script moves there first, and from two starting directories the exit
    status, the disk, the lines printed and the final directory are the
    same. *)
Theorem started_from_anywhere
    (E : env) (a : args) (F : gmap string node) (S : list string) (c1 c2 out rest : string) :
  check_output E ["git"; "rev-parse"; "--show-toplevel"] = Output out ->
  Py.strip out = String "/" rest ->
  run E a {| fs := F; cwd := c1; stdout := S |}
  = run E a {| fs := F; cwd := c2; stdout := S |}.
Proof.
  intros Hroot Habs. unfold run, main.
  unfold bind at 1. unfold bind at 5. unfold get_git_root. rewrite Hroot.
  unfold ret. unfold bind at 1. unfold bind at 4. unfold os_chdir.
  cbn [fs cwd stdout]. unfold resolve, os_path_join. rewrite Habs.
  reflexivity.
Qed.

Lemma started_from_anywhere_witness :
  Py.strip (line "/repo") = "/repo"
  /\ run scenario_A no_options {| fs := fs checkout; cwd := "/repo/src"; stdout := [] |}
     = run scenario_A no_options {| fs := fs checkout; cwd := "/repo"; stdout := [] |}.
Proof.
  split; [reflexivity|].
  exact (started_from_anywhere scenario_A no_options (fs checkout) [] "/repo/src" "/repo"
           (line "/repo") "repo" eq_refl eq_refl).
Defined.
